(** * Member join handler (src/handlers/member_events.py)

    A shallow embedding of [MemberEventHandler] and of the Python
    operations its methods use, followed by the properties of the
    event-intake specification that concern it.

    Modelling conventions.
    - Python values are the JSON-shaped values a gateway payload is made
      of, plus opaque object references (a channel, a client).  Strings
      are byte strings; [lower] acts on ASCII letters.
    - [exn] stands for an instance of Python's [Exception]: the class the
      three [except Exception] clauses of the module catch.  Signals that
      derive from [BaseException] only (task cancellation, interpreter
      exit) are outside the model.
    - A coroutine is a finite tree of collaborator calls ([prog]); the
      collaborators (configuration service, Discord client, channel) are
      an [oracle] that answers every call from the history so far, and
      [run] records what happened in a [trace].  The logger and
      [asyncio.sleep] only leave an entry in the trace. *)

From Stdlib Require Import ZArith QArith_base String Ascii List Lia.
From stdpp Require Import base option gmap strings list.

Set Warnings "-register-all".
Local Open Scope string_scope.
Local Open Scope Z_scope.

(** ** Values *)

Inductive pyval : Type :=
| VNone
| VBool (b : bool)
| VInt (z : Z)
| VFloat (q : Q)
| VStr (s : string)
| VList (l : list pyval)
| VDict (d : gmap string pyval)
| VObj (h : nat).

(** A Python [dict] with string keys. *)
Abbreviation pydict := (gmap string pyval).

(** An instance of [Exception]: its class name, [str(e)], and the
    attribute [retry_after] when the instance has one. *)
Record exn : Type := Exn {
  exn_type : string;
  exn_msg : string;
  exn_retry_after : option pyval
}.

(** What evaluating an expression or awaiting a call gives. *)
Inductive result (A : Type) : Type :=
| Returned (a : A)
| Raised (e : exn).
Arguments Returned {A} a.
Arguments Raised {A} e.

Definition TypeError (msg : string) : exn := Exn "TypeError" msg None.
Definition KeyError (msg : string) : exn := Exn "KeyError" msg None.
Definition ValueError (msg : string) : exn := Exn "ValueError" msg None.
Definition AttributeError (msg : string) : exn := Exn "AttributeError" msg None.
Definition RuntimeError (msg : string) : exn := Exn "RuntimeError" msg None.

(** ** Strings: [str.lower] and the substring test [needle in hay] *)

Definition lower_ascii (c : ascii) : ascii :=
  let n := N_of_ascii c in
  if ((65 <=? n) && (n <=? 90))%N then ascii_of_N (n + 32) else c.

Fixpoint lower (s : string) : string :=
  match s with
  | EmptyString => EmptyString
  | String c t => String (lower_ascii c) (lower t)
  end.

Fixpoint str_contains (needle hay : string) : bool :=
  String.prefix needle hay
  || match hay with
     | EmptyString => false
     | String _ t => str_contains needle t
     end.

(** ** Built-in operations *)

Definition type_name (v : pyval) : string :=
  match v with
  | VNone => "NoneType"
  | VBool _ => "bool"
  | VInt _ => "int"
  | VFloat _ => "float"
  | VStr _ => "str"
  | VList _ => "list"
  | VDict _ => "dict"
  | VObj _ => "object"
  end.

Definition is_str (s : string) (v : pyval) : bool :=
  match v with
  | VStr t => String.eqb s t
  | _ => false
  end.

(** [key in container] for a string [key]: key membership in a dict,
    substring in a str, element membership in a list, [TypeError] on a
    value that is not a container. *)
Definition py_contains (container : pyval) (key : string) : result bool :=
  match container with
  | VDict d => Returned (bool_decide (is_Some (d !! key)))
  | VStr s => Returned (str_contains key s)
  | VList l => Returned (existsb (is_str key) l)
  | v => Raised (TypeError ("argument of type '" ++ type_name v ++ "' is not iterable"))
  end.

(** [container[key]] for a string [key]. *)
Definition py_getitem (container : pyval) (key : string) : result pyval :=
  match container with
  | VDict d =>
      match d !! key with
      | Some v => Returned v
      | None => Raised (KeyError ("'" ++ key ++ "'"))
      end
  | VStr _ => Raised (TypeError "string indices must be integers, not 'str'")
  | VList _ => Raised (TypeError "list indices must be integers or slices, not str")
  | v => Raised (TypeError ("'" ++ type_name v ++ "' object is not subscriptable"))
  end.

(** [x is None]. *)
Definition is_None (v : pyval) : bool :=
  match v with
  | VNone => true
  | _ => false
  end.

(** ** Coroutines, collaborators and traces *)

(** The welcome message: the fixed template with the mention
    [<@user_id>] filled in. *)
Inductive content : Type :=
| WelcomeText (user_id : pyval).

(** Awaited calls on collaborators. *)
Inductive call : Type :=
| GetWelcomeChannel (config_service : nat) (guild_id : pyval)
| FetchChannel (client : nat) (channel_id : Z)
| ChannelSend (channel : nat) (message_content : content).

Inductive level : Type := INFO | WARNING | ERROR.

(** The log lines of the module, one constructor per format string. *)
Inductive logmsg : Type :=
| InvalidEventData (event_data : pydict)
| DuplicateJoin (user_id guild_id : pyval)
| NoWelcomeChannel (guild_id : pyval)
| WelcomeSent (user_id guild_id : pyval)
| ProcessFailed (guild_id : pyval) (err : string)
| ChannelNotFound (channel_id : pyval)
| SentToChannel (channel_id username user_id : pyval)
| RateLimited (retry_after : pyval)
| PermissionDenied (channel_id : pyval)
| SendFailed (err : string)
| FetchFailed (channel_id : pyval) (err : string).

Inductive event : Type :=
| EvCall (c : call) (r : result pyval)
| EvLog (lvl : level) (m : logmsg)
| EvSleep (delay : pyval).

Abbreviation trace := (list event).

(** The collaborators: the answer to a call, given everything that has
    happened before it. *)
Definition oracle : Type := trace -> call -> result pyval.

Inductive prog (A : Type) : Type :=
| Ret (a : A)
| Raise (e : exn)
| Call (c : call) (k : result pyval -> prog A)
| Emit (ev : event) (k : prog A).
Arguments Ret {A} a.
Arguments Raise {A} e.
Arguments Call {A} c k.
Arguments Emit {A} ev k.

Fixpoint prog_bind {A B : Type} (f : A -> prog B) (p : prog A) : prog B :=
  match p with
  | Ret a => f a
  | Raise e => Raise e
  | Call c k => Call c (fun r => prog_bind f (k r))
  | Emit ev k => Emit ev (prog_bind f k)
  end.

#[export] Instance prog_mret : MRet prog := fun A a => Ret a.
#[export] Instance prog_mbind : MBind prog := fun A B f p => prog_bind f p.

(** [try: p except Exception as e: h e]. *)
Fixpoint try_catch {A : Type} (p : prog A) (h : exn -> prog A) : prog A :=
  match p with
  | Ret a => Ret a
  | Raise e => h e
  | Call c k => Call c (fun r => try_catch (k r) h)
  | Emit ev k => Emit ev (try_catch k h)
  end.

(** The value of a pure expression, inside a coroutine. *)
Definition lift {A : Type} (r : result A) : prog A :=
  match r with
  | Returned a => Ret a
  | Raised e => Raise e
  end.

(** [await c]. *)
Definition await (c : call) : prog pyval := Call c lift.

Definition log (lvl : level) (m : logmsg) : prog unit := Emit (EvLog lvl m) (Ret tt).

(** [int], [float] and [bool] values: what can be compared with [0]. *)
Definition is_number (v : pyval) : bool :=
  match v with
  | VInt _ | VFloat _ | VBool _ => true
  | _ => false
  end.

(** [await asyncio.sleep(delay)]: the delay is compared with zero first,
    which raises [TypeError] on anything but a number. *)
Definition asyncio_sleep (delay : pyval) : prog unit :=
  if is_number delay then Emit (EvSleep delay) (Ret tt)
  else Raise (TypeError ("'<=' not supported between instances of '"
                         ++ type_name delay ++ "' and 'int'")).

(** Running a coroutine against the collaborators, from the history [tr]:
    the history at the end and what the coroutine gave. *)
Fixpoint run {A : Type} (o : oracle) (tr : trace) (p : prog A) : trace * result A :=
  match p with
  | Ret a => (tr, Returned a)
  | Raise e => (tr, Raised e)
  | Call c k => let r := o tr c in run o (tr ++ [EvCall c r]) (k r)
  | Emit ev k => run o (tr ++ [ev]) k
  end.

Section Handler.

(** Python's [int] on a [str]: the integer the literal denotes, or [None]
    where [int] raises [ValueError]. *)
Variable int_of_str : string -> option Z.

(** [int(v)]. *)
Definition py_int (v : pyval) : result Z :=
  match v with
  | VInt z => Returned z
  | VBool b => Returned (if b then 1 else 0)
  | VFloat q => Returned (Z.quot (Qnum q) (Z.pos (Qden q)))
  | VStr s =>
      match int_of_str s with
      | Some z => Returned z
      | None => Raised (ValueError ("invalid literal for int() with base 10: '" ++ s ++ "'"))
      end
  | v => Raised (TypeError
           ("int() argument must be a string, a bytes-like object or a real number, not '"
            ++ type_name v ++ "'"))
  end.

(** ** The handler *)

Record MemberEventHandler : Type := {
  config_service : nat;
  _discord_client : option nat
}.

Definition __init__ (config_service : nat) : MemberEventHandler :=
  {| config_service := config_service; _discord_client := None |}.

Definition set_discord_client (self : MemberEventHandler) (client : nat)
  : MemberEventHandler :=
  {| config_service := config_service self; _discord_client := Some client |}.

Definition required_fields : list string := ["guild_id"; "user"].
Definition user_required_fields : list string := ["id"; "username"].

(** [for field in fields: if field not in container: return False],
    falling through to [True] here and to the next statement in the
    caller. *)
Fixpoint all_fields_in (container : pyval) (fields : list string) : result bool :=
  match fields with
  | [] => Returned true
  | field :: rest =>
      match py_contains container field with
      | Returned true => all_fields_in container rest
      | Returned false => Returned false
      | Raised e => Raised e
      end
  end.

Definition _validate_event_data (event_data : pydict) : result bool :=
  match all_fields_in (VDict event_data) required_fields with
  | Returned true =>
      let user_data := default (VDict ∅) (event_data !! "user") in
      all_fields_in user_data user_required_fields
  | r => r
  end.

Definition _is_duplicate_event (event_data : pydict) : bool := false.

Definition _get_channel (self : MemberEventHandler) (channel_id : pyval) : prog pyval :=
  match _discord_client self with
  | None => Raise (RuntimeError "Discord client not initialized")
  | Some client =>
      try_catch
        (n ← lift (py_int channel_id);
         await (FetchChannel client n))
        (fun e =>
           log ERROR (FetchFailed channel_id (exn_msg e));;
           Ret VNone)
  end.

(** [await channel.send(content=message_content)]. *)
Definition channel_send (channel : pyval) (message_content : content) : prog pyval :=
  match channel with
  | VObj h => await (ChannelSend h message_content)
  | v => Raise (AttributeError ("'" ++ type_name v ++ "' object has no attribute 'send'"))
  end.

Definition _send_welcome_message (self : MemberEventHandler)
    (channel_id : pyval) (user : pyval) : prog pyval :=
  try_catch
    (channel ← _get_channel self channel_id;
     if is_None channel then
       log ERROR (ChannelNotFound channel_id);;
       Ret VNone
     else
       user_id ← lift (py_getitem user "id");
       username ← lift (py_getitem user "username");
       let message_content := WelcomeText user_id in
       channel_send channel message_content;;
       log INFO (SentToChannel channel_id username user_id);;
       Ret VNone)
    (fun e =>
       if str_contains "rate limit" (lower (exn_msg e)) || str_contains "429" (exn_msg e) then
         let retry_after := default (VFloat (5 # 1)) (exn_retry_after e) in
         log WARNING (RateLimited retry_after);;
         asyncio_sleep retry_after;;
         Ret VNone
       else if str_contains "permission" (lower (exn_msg e)) || str_contains "403" (exn_msg e) then
         log ERROR (PermissionDenied channel_id);;
         Ret VNone
       else
         log ERROR (SendFailed (exn_msg e));;
         Raise e).

Definition handle_guild_member_add (self : MemberEventHandler)
    (event_data : pydict) : prog pyval :=
  try_catch
    (valid ← lift (_validate_event_data event_data);
     if negb valid then
       log ERROR (InvalidEventData event_data);;
       Ret VNone
     else
       guild_id ← lift (py_getitem (VDict event_data) "guild_id");
       user ← lift (py_getitem (VDict event_data) "user");
       if _is_duplicate_event event_data then
         user_id ← lift (py_getitem user "id");
         log INFO (DuplicateJoin user_id guild_id);;
         Ret VNone
       else
         welcome_channel_id ← await (GetWelcomeChannel (config_service self) guild_id);
         if is_None welcome_channel_id then
           log WARNING (NoWelcomeChannel guild_id);;
           Ret VNone
         else
           _send_welcome_message self welcome_channel_id user;;
           user_id ← lift (py_getitem user "id");
           log INFO (WelcomeSent user_id guild_id);;
           Ret VNone)
    (fun e =>
       log ERROR (ProcessFailed (default (VStr "unknown") (event_data !! "guild_id"))
                                (exn_msg e));;
       Ret VNone).

(** The intake loop: the events delivered one after the other to the same
    handler; the history and the value each delivery gave. *)
Fixpoint process_all (self : MemberEventHandler) (o : oracle) (tr : trace)
    (events : list pydict) : trace * list (result pyval) :=
  match events with
  | [] => (tr, [])
  | event_data :: rest =>
      let '(tr1, r) := run o tr (handle_guild_member_add self event_data) in
      let '(tr2, rs) := process_all self o tr1 rest in
      (tr2, r :: rs)
  end.

End Handler.

(** ** Observing a trace *)

Local Open Scope list_scope.

Definition is_send (ev : event) : bool :=
  match ev with
  | EvCall (ChannelSend _ _) _ => true
  | _ => false
  end.

Definition is_lookup (ev : event) : bool :=
  match ev with
  | EvCall (GetWelcomeChannel _ _) _ => true
  | _ => false
  end.

Definition is_sleep (ev : event) : bool :=
  match ev with
  | EvSleep _ => true
  | _ => false
  end.

Definition is_duplicate_report (ev : event) : bool :=
  match ev with
  | EvLog _ (DuplicateJoin _ _) => true
  | _ => false
  end.

(** How many entries of the trace satisfy [f]. *)
Definition count (f : event -> bool) (tr : trace) : nat :=
  length (List.filter f tr).

(** Does the trace of one dispatch show a wait ahead of its first send? *)
Fixpoint waits_before_attempt (tr : trace) : bool :=
  match tr with
  | [] => false
  | ev :: rest =>
      if is_sleep ev then true
      else if is_send ev then false
      else waits_before_attempt rest
  end.

(** On every answer of the collaborators, the entries the coroutine adds
    to the trace and what it gives are related by [R]. *)
Fixpoint all_runs {A : Type} (R : trace -> result A -> Prop) (p : prog A) : Prop :=
  match p with
  | Ret a => R [] (Returned a)
  | Raise e => R [] (Raised e)
  | Call c k => forall r, all_runs (fun seg x => R (EvCall c r :: seg) x) (k r)
  | Emit ev k => all_runs (fun seg x => R (ev :: seg) x) k
  end.

(** ** Concrete collaborators and events *)

(** An instance of [int_of_str] for the examples.  It reads a literal made
    of decimal digits only, on which it agrees with Python's [int]; the
    sign, the surrounding blanks and the underscores that [int] accepts as
    well are refused by it.  Every theorem holds for any [int_of_str]. *)
Fixpoint decimal_digits (acc : Z) (s : string) : option Z :=
  match s with
  | EmptyString => Some acc
  | String c t =>
      let n := N_of_ascii c in
      if ((48 <=? n) && (n <=? 57))%N
      then decimal_digits (10 * acc + Z.of_N (n - 48)) t
      else None
  end.

Definition decimal (s : string) : option Z :=
  match s with
  | EmptyString => None
  | _ => decimal_digits 0 s
  end.

(** The event of the test suite's fixture. *)
Definition new_user : pyval :=
  VDict (<["id" := VStr "987654321"]> (<["username" := VStr "new_user"]> ∅)).

Definition guild_member_add_event : pydict :=
  <["guild_id" := VStr "123456789"]> (<["user" := new_user]> ∅).

(** The same event with an empty identifier and an empty display name. *)
Definition empty_names_event : pydict :=
  <["guild_id" := VStr "123456789"]>
    (<["user" := VDict (<["id" := VStr ""]> (<["username" := VStr ""]> ∅))]> ∅).

(** The malformed event of the test suite: no [user]. *)
Definition malformed_event : pydict :=
  <["guild_id" := VStr "123456789"]> ∅.

(** A handler with configuration service 1, and the same with client 2
    injected. *)
Definition bare_handler : MemberEventHandler := __init__ 1.
Definition handler : MemberEventHandler := set_discord_client bare_handler 2.

(** Collaborators that always succeed: channel ["555666777"] is
    configured, is fetched as object 7, and accepts every message. *)
Definition healthy : oracle := fun _ c =>
  match c with
  | GetWelcomeChannel _ _ => Returned (VStr "555666777")
  | FetchChannel _ _ => Returned (VObj 7)
  | ChannelSend _ _ => Returned VNone
  end.

(** No welcome channel is configured. *)
Definition unconfigured : oracle := fun _ c =>
  match c with
  | GetWelcomeChannel _ _ => Returned VNone
  | FetchChannel _ _ => Returned (VObj 7)
  | ChannelSend _ _ => Returned VNone
  end.

(** Every send fails with [e]. *)
Definition send_fails (e : exn) : oracle := fun _ c =>
  match c with
  | GetWelcomeChannel _ _ => Returned (VStr "555666777")
  | FetchChannel _ _ => Returned (VObj 7)
  | ChannelSend _ _ => Raised e
  end.

(** Every channel fetch fails with [e]. *)
Definition fetch_fails (e : exn) : oracle := fun _ c =>
  match c with
  | GetWelcomeChannel _ _ => Returned (VStr "not-a-number")
  | FetchChannel _ _ => Raised e
  | ChannelSend _ _ => Returned VNone
  end.

Definition rate_limited : exn :=
  Exn "HTTPException" "429 Too Many Requests: rate limit exceeded" (Some (VFloat (3 # 2))).

Definition connection_reset : exn :=
  Exn "ClientConnectionError" "Connection reset by peer" None.

Definition not_found : exn :=
  Exn "NotFound" "404 Not Found: Unknown Channel" None.

(** Collaborators whose first send fails with [e] and whose later sends
    succeed. *)
Definition fails_once (e : exn) : oracle := fun tr c =>
  match c with
  | GetWelcomeChannel _ _ => Returned (VStr "555666777")
  | FetchChannel _ _ => Returned (VObj 7)
  | ChannelSend _ _ => if (count is_send tr =? 0)%nat then Raised e else Returned VNone
  end.

(** Is there a send after a wait? *)
Fixpoint retried_after_wait (tr : trace) : bool :=
  match tr with
  | [] => false
  | ev :: rest =>
      (is_sleep ev && (0 <? count is_send rest)%nat) || retried_after_wait rest
  end.

(** ** The specification's statements, read on the code *)

(** Of [n] deliveries of one event, one is dispatched and every other one
    is reported as a duplicate. *)
Definition dispatched_exactly_once (int_of_str : string -> option Z)
    (self : MemberEventHandler) (o : oracle) (event_data : pydict) (n : nat) : Prop :=
  let tr := (process_all int_of_str self o [] (replicate n event_data)).1 in
  count is_send tr = 1%nat /\ count is_duplicate_report tr = (n - 1)%nat.


(** The history after [n] consecutive dispatches to one channel. *)
Fixpoint send_times (int_of_str : string -> option Z) (self : MemberEventHandler)
    (o : oracle) (tr : trace) (channel_id user : pyval) (n : nat) : trace :=
  match n with
  | O => tr
  | S m =>
      let tr1 := send_times int_of_str self o tr channel_id user m in
      (run o tr1 (_send_welcome_message int_of_str self channel_id user)).1
  end.

(** The entries dispatch number [i] (from 0) added to the history. *)
Definition dispatch_entries (int_of_str : string -> option Z) (self : MemberEventHandler)
    (o : oracle) (channel_id user : pyval) (i : nat) : trace :=
  drop (length (send_times int_of_str self o [] channel_id user i))
       (send_times int_of_str self o [] channel_id user (S i)).

(** With a budget of [N] calls, the first [N] dispatches go out without
    waiting and the next one waits before its attempt. *)
Definition budget_respected (int_of_str : string -> option Z) (self : MemberEventHandler)
    (o : oracle) (channel_id user : pyval) (N : nat) : Prop :=
  (forall i, (i < N)%nat ->
     waits_before_attempt (dispatch_entries int_of_str self o channel_id user i) = false)
  /\ waits_before_attempt (dispatch_entries int_of_str self o channel_id user N) = true.

(** ** Further observations and collaborators *)

Definition is_fetch (ev : event) : bool :=
  match ev with
  | EvCall (FetchChannel _ _) _ => true
  | _ => false
  end.

(** Values on which [key in value] is defined: dict, str and list. *)
Definition is_container (v : pyval) : bool :=
  match v with
  | VDict _ | VStr _ | VList _ => true
  | _ => false
  end.

(** The guild a "Failed to process member join" line names, if the entry
    is such a line. *)
Definition failure_guild (ev : event) : option pyval :=
  match ev with
  | EvLog _ (ProcessFailed guild_id _) => Some guild_id
  | _ => None
  end.

(** The configured channel no longer exists: the fetch gives [None]. *)
Definition channel_gone : oracle := fun _ c =>
  match c with
  | GetWelcomeChannel _ _ => Returned (VStr "999999999")
  | FetchChannel _ _ => Returned VNone
  | ChannelSend _ _ => Returned VNone
  end.

(** The configuration service is down: every lookup fails with [e]. *)
Definition config_down (e : exn) : oracle := fun _ c =>
  match c with
  | GetWelcomeChannel _ _ => Raised e
  | FetchChannel _ _ => Returned (VObj 7)
  | ChannelSend _ _ => Returned VNone
  end.

Definition forbidden : exn :=
  Exn "Forbidden" "403 Forbidden (error code: 50013): Missing Permissions" None.

Definition database_error : exn :=
  Exn "Exception" "Connection timeout" None.

(** ** The NFR-001 verification script (verify_nfr_001.py)

    The script inspects the working tree and prints a report.  The tree
    is a map from the paths the script names to what is found there: a
    file whose text can be read, or something that exists but whose
    [open] or [read] raises (a directory, a file that is not UTF-8).  It
    describes working trees whose paths can all be examined:
    [Path.exists] answers for each path, as it does unless the path lies
    under a directory that may not be searched, where it raises.  A
    function of the script gives the lines it prints and its value. *)

Inductive node : Type :=
| Readable (content : string)
| Unreadable (e : exn).

Abbreviation tree := (gmap string node).

Definition newline : string := String (ascii_of_nat 10) EmptyString.

Fixpoint str_repeat (s : string) (n : nat) : string :=
  match n with
  | O => EmptyString
  | S m => s +:+ str_repeat s m
  end.

(** [all(results)]. *)
Definition py_all (results : list bool) : bool := forallb id results.

(** [Path(filepath).exists()], on a tree whose paths can be examined. *)
Definition check_file_exists (fs : tree) (filepath : string) : bool :=
  bool_decide (is_Some (fs !! filepath)).

(** [open(filepath, 'r', encoding='utf-8')] followed by [f.read()]. *)
Definition read_text (fs : tree) (filepath : string) : result string :=
  match fs !! filepath with
  | Some (Readable content) => Returned content
  | Some (Unreadable e) => Raised e
  | None => Raised (Exn "FileNotFoundError"
                        ("[Errno 2] No such file or directory: '" +:+ filepath +:+ "'")
                        None)
  end.

Definition check_function_in_file (fs : tree) (filepath function_name : string)
  : list string * bool :=
  if negb (check_file_exists fs filepath) then ([], false)
  else
    match read_text fs filepath with
    | Returned content => ([], str_contains function_name content)
    | Raised e => (["讀取文件錯誤 " +:+ filepath +:+ ": " +:+ exn_msg e], false)
    end.

(** The loop the four implementation checks share:
    [for name, pattern in checks: ...; results.append(exists)]. *)
Fixpoint check_patterns (fs : tree) (file : string) (checks : list (string * string))
  : list string * list bool :=
  match checks with
  | [] => ([], [])
  | (name, pattern) :: rest =>
      let '(out, exists_) := check_function_in_file fs file pattern in
      let status := if exists_ then "✅" else "❌" in
      let '(out', results) := check_patterns fs file rest in
      (out ++ ["   " +:+ status +:+ " " +:+ name] ++ out', exists_ :: results)
  end.

Definition rate_limit_file : string := "src/discord/rate_limit.rs".

Definition rate_limit_checks : list (string * string) :=
  [("RateLimiter 結構", "pub struct RateLimiter");
   ("HTTP 429 處理", "handle_rate_limit_response");
   ("指數退避算法", "ExponentialBackoffConfig");
   ("等待機制", "wait_if_rate_limited");
   ("統計功能", "get_stats")].

Definition check_rate_limiting_implementation (fs : tree) : list string * bool :=
  let '(out, results) := check_patterns fs rate_limit_file rate_limit_checks in
  ("🔍 檢查速率限制實現..." :: out, py_all results).

Definition event_handler_file : string := "src/discord/event_handler.rs".

Definition idempotency_checks : list (string * string) :=
  [("EventHandler 結構", "pub struct EventHandler");
   ("重複檢測", "check_duplication");
   ("事件記錄", "record_processed_event");
   ("去重緩存", "deduplication_cache");
   ("事件處理", "handle_member_join")].

Definition check_idempotency_implementation (fs : tree) : list string * bool :=
  let '(out, results) := check_patterns fs event_handler_file idempotency_checks in
  ((newline +:+ "🔍 檢查事件冪等性實現...") :: out, py_all results).

Definition monitoring_file : string := "src/discord/monitoring.rs".

Definition monitoring_checks : list (string * string) :=
  [("監控器結構", "pub struct DiscordMonitor");
   ("速率限制指標", "RateLimitMetrics");
   ("API指標", "ApiMetrics");
   ("事件指標", "EventMetrics");
   ("指標導出", "get_metrics")].

Definition check_monitoring_implementation (fs : tree) : list string * bool :=
  let '(out, results) := check_patterns fs monitoring_file monitoring_checks in
  ((newline +:+ "🔍 檢查監控實現...") :: out, py_all results).

Definition test_file : string := "tests/test_nfr_001.rs".

Definition test_checks : list (string * string) :=
  [("速率限制測試", "test_nfr_rate_limiting_discord_api_awareness");
   ("指數退避測試", "test_nfr_exponential_backoff_algorithm");
   ("事件冪等性測試", "test_nfr_event_idempotency_duplication_detection");
   ("性能測試", "test_nfr_rate_limiting_performance");
   ("集成測試", "test_nfr_rate_limiting_and_idempotency_integration");
   ("混沌測試", "test_nfr_rate_limiting_chaos")].

Definition check_test_coverage (fs : tree) : list string * bool :=
  let '(out, results) := check_patterns fs test_file test_checks in
  ((newline +:+ "🔍 檢查測試覆蓋...") :: out, py_all results).

Definition doc_files : list (string * string) :=
  [("實施計劃", "docs/implementation-plan/NFR-001-plan.md");
   ("開發筆記", "docs/dev-notes/NFR-001-dev-notes.md");
   ("架構文檔", "docs/architecture/Non-functional requirements architecture.md")].

(** [for name, filepath in doc_files: exists = check_file_exists(filepath); ...]. *)
Fixpoint check_files (fs : tree) (files : list (string * string))
  : list string * list bool :=
  match files with
  | [] => ([], [])
  | (name, filepath) :: rest =>
      let exists_ := check_file_exists fs filepath in
      let status := if exists_ then "✅" else "❌" in
      let '(out', results) := check_files fs rest in
      (("   " +:+ status +:+ " " +:+ name) :: out', exists_ :: results)
  end.

Definition check_documentation (fs : tree) : list string * bool :=
  let '(out, results) := check_files fs doc_files in
  ((newline +:+ "🔍 檢查文檔完整性...") :: out, py_all results).

Definition dev_notes_file : string := "docs/dev-notes/NFR-001-dev-notes.md".

Definition targets : list (string * string * string) :=
  [("速率限制處理延遲", "速率限制處理延遲: < 1ms", "目標: < 10ms");
   ("事件冪等性檢查延遲", "事件冪等性檢查延遲: < 1ms", "目標: < 5ms");
   ("系統恢復時間", "系統恢復時間: < 5秒", "目標: < 30秒")].

Definition target_line (content : string) (t : string * string * string) : string :=
  let '(name, pattern, target) := t in
  if str_contains pattern content
  then "   ✅ " +:+ name +:+ ": " +:+ pattern +:+ " ✅ " +:+ target
  else "   ⚠️  " +:+ name +:+ ": " +:+ target +:+ " (需要驗證)".

Definition analyze_performance_targets (fs : tree) : list string :=
  (newline +:+ "🎯 分析性能目標...")
  :: (if check_file_exists fs dev_notes_file then
        match read_text fs dev_notes_file with
        | Returned content => map (target_line content) targets
        | Raised e => ["   ❌ 讀取開發筆記錯誤: " +:+ exn_msg e]
        end
      else ["   ❌ 開發筆記文件不存在"]).

Definition done_or_not (ok : bool) : string :=
  if ok then "✅ 完成" else "❌ 不完整".

Definition passed_banner : string := newline +:+ "🎉 NFR-001 核心功能驗證通過！".

Definition passed_lines : list string :=
  [passed_banner;
   "✅ 所有核心功能已實現";
   "✅ 測試覆蓋完整";
   "✅ 文檔齊全";
   "✅ 性能目標達成"].

Definition unfinished_lines : list string :=
  [newline +:+ "⚠️  NFR-001 核心功能需要進一步完善";
   "請檢查上述標記為❌的項目"].

Definition advice_lines : list string :=
  [newline +:+ "🔧 下一步建議:";
   "1. 解決編譯依賴問題（Serenity API版本相容性）";
   "2. 運行完整測試套件驗證功能";
   "3. 執行性能基準測試";
   "4. 進行集成測試"].

Definition main (fs : tree) : list string :=
  let '(out1, rate_limiting_ok) := check_rate_limiting_implementation fs in
  let '(out2, idempotency_ok) := check_idempotency_implementation fs in
  let '(out3, monitoring_ok) := check_monitoring_implementation fs in
  let '(out4, test_coverage_ok) := check_test_coverage fs in
  let '(out5, documentation_ok) := check_documentation fs in
  ["🚀 NFR-001 核心功能驗證開始..."; str_repeat "=" 50]
  ++ out1 ++ out2 ++ out3 ++ out4 ++ out5
  ++ analyze_performance_targets fs
  ++ [newline +:+ str_repeat "=" 50;
      "📊 驗證結果總結:";
      "   速率限制實現: " +:+ done_or_not rate_limiting_ok;
      "   事件冪等性實現: " +:+ done_or_not idempotency_ok;
      "   監控系統實現: " +:+ done_or_not monitoring_ok;
      "   測試覆蓋: " +:+ done_or_not test_coverage_ok;
      "   文檔完整性: " +:+ done_or_not documentation_ok]
  ++ (if py_all [rate_limiting_ok; idempotency_ok; monitoring_ok;
                 test_coverage_ok; documentation_ok]
      then passed_lines else unfinished_lines)
  ++ advice_lines.

(** A tree in which every file the script looks for is in place, the
    sources holding exactly the names that are searched. *)
Definition join_lines (l : list string) : string :=
  foldr (fun s acc => s +:+ newline +:+ acc) EmptyString l.

Definition complete_tree : tree :=
  <[rate_limit_file := Readable (join_lines (map snd rate_limit_checks))]>
  (<[event_handler_file := Readable (join_lines (map snd idempotency_checks))]>
  (<[monitoring_file := Readable (join_lines (map snd monitoring_checks))]>
  (<[test_file := Readable (join_lines (map snd test_checks))]>
  (<["docs/implementation-plan/NFR-001-plan.md" := Readable "plan"]>
  (<["docs/dev-notes/NFR-001-dev-notes.md" := Readable "notes"]>
  (<["docs/architecture/Non-functional requirements architecture.md"
     := Readable "architecture"]> ∅)))))).

(** The path of the rate limiter is a directory. *)
Definition is_a_directory : exn :=
  Exn "IsADirectoryError" "[Errno 21] Is a directory: 'src/discord/rate_limit.rs'" None.

Definition directory_tree : tree := <[rate_limit_file := Unreadable is_a_directory]> ∅.

(** ** Same-key events and a store with several tenants *)

(** A valid event of tenant [guild_id] about subject [user_id]: both
    top-level fields are there, and [user] is a dict from which the id and
    a name can be read. *)
Definition has_key (guild_id user_id : pyval) (event_data : pydict) : Prop :=
  event_data !! "guild_id" = Some guild_id
  /\ exists user username,
       event_data !! "user" = Some user
       /\ py_getitem user "id" = Returned user_id
       /\ py_getitem user "username" = Returned username.

(** The fixture event as the transport delivers it a second time: same
    guild and user, another [joined_at]. *)
Definition redelivered_event : pydict :=
  <["joined_at" := VStr "2025-01-01T00:00:05"]> guild_member_add_event.

(** A store in which only guild ["123456789"] has no welcome channel;
    every other guild has channel ["555666777"]. *)
Definition one_guild_unconfigured : oracle := fun _ c =>
  match c with
  | GetWelcomeChannel _ guild_id =>
      if is_str "123456789" guild_id then Returned VNone
      else Returned (VStr "555666777")
  | FetchChannel _ _ => Returned (VObj 7)
  | ChannelSend _ _ => Returned VNone
  end.

(** ** Running composite coroutines *)

Lemma run_bind {A B : Type} (o : oracle) (p : prog A) (f : A -> prog B) :
  forall tr,
    run o tr (p ≫= f) =
    match run o tr p with
    | (tr', Returned a) => run o tr' (f a)
    | (tr', Raised e) => (tr', Raised e)
    end.
Proof.
  induction p as [a | e | c k IH | ev k IH]; intros tr; simpl; try reflexivity.
  - apply IH.
  - apply IH.
Qed.

Lemma run_try_catch {A : Type} (o : oracle) (p : prog A) (h : exn -> prog A) :
  forall tr,
    run o tr (try_catch p h) =
    match run o tr p with
    | (tr', Returned a) => (tr', Returned a)
    | (tr', Raised e) => run o tr' (h e)
    end.
Proof.
  induction p as [a | e | c k IH | ev k IH]; intros tr; simpl; try reflexivity.
  - apply IH.
  - apply IH.
Qed.

Lemma all_runs_mono {A : Type} (p : prog A) :
  forall R R' : trace -> result A -> Prop,
    (forall seg r, R seg r -> R' seg r) -> all_runs R p -> all_runs R' p.
Proof.
  induction p as [a | e | c k IH | ev k IH]; simpl; intros R R' HR Hp; auto.
  - intros r. eapply IH; [| apply Hp]. simpl. auto.
  - eapply IH; [| apply Hp]. simpl. auto.
Qed.

Lemma all_runs_bind {A B : Type} (p : prog A) (f : A -> prog B) :
  forall (R1 : trace -> result A -> Prop) (R : trace -> result B -> Prop),
    all_runs R1 p ->
    (forall seg a, R1 seg (Returned a) -> all_runs (fun seg' r => R (seg ++ seg') r) (f a)) ->
    (forall seg e, R1 seg (Raised e) -> R seg (Raised e)) ->
    all_runs R (p ≫= f).
Proof.
  induction p as [a | e | c k IH | ev k IH]; simpl; intros R1 R Hp Hf He.
  - apply (Hf [] a Hp).
  - apply (He [] e Hp).
  - intros r. eapply IH; [apply Hp | |]; simpl; intros seg x Hx.
    + apply (Hf _ _ Hx).
    + apply (He _ _ Hx).
  - eapply IH; [apply Hp | |]; simpl; intros seg x Hx.
    + apply (Hf _ _ Hx).
    + apply (He _ _ Hx).
Qed.

Lemma all_runs_try_catch {A : Type} (p : prog A) (h : exn -> prog A) :
  forall R1 R : trace -> result A -> Prop,
    all_runs R1 p ->
    (forall seg a, R1 seg (Returned a) -> R seg (Returned a)) ->
    (forall seg e, R1 seg (Raised e) -> all_runs (fun seg' r => R (seg ++ seg') r) (h e)) ->
    all_runs R (try_catch p h).
Proof.
  induction p as [a | e | c k IH | ev k IH]; simpl; intros R1 R Hp Hr Hh.
  - apply (Hr [] a Hp).
  - apply (Hh [] e Hp).
  - intros r. eapply IH; [apply Hp | |]; simpl; intros seg x Hx.
    + apply (Hr _ _ Hx).
    + apply (Hh _ _ Hx).
  - eapply IH; [apply Hp | |]; simpl; intros seg x Hx.
    + apply (Hr _ _ Hx).
    + apply (Hh _ _ Hx).
Qed.

(** What holds on every answer holds on the answers a given oracle
    picks. *)
Lemma all_runs_run {A : Type} (o : oracle) (p : prog A) :
  forall (R : trace -> result A -> Prop),
    all_runs R p ->
    forall tr, exists seg r, run o tr p = (tr ++ seg, r) /\ R seg r.
Proof.
  induction p as [a | e | c k IH | ev k IH]; simpl; intros R Hp tr.
  - exists [], (Returned a). rewrite app_nil_r. auto.
  - exists [], (Raised e). rewrite app_nil_r. auto.
  - destruct (IH _ _ (Hp (o tr c)) (tr ++ [EvCall c (o tr c)])) as (seg & r & Hrun & HR).
    exists (EvCall c (o tr c) :: seg), r. rewrite Hrun, <- app_assoc. auto.
  - destruct (IH _ Hp (tr ++ [ev])) as (seg & r & Hrun & HR).
    exists (ev :: seg), r. rewrite Hrun, <- app_assoc. auto.
Qed.


Lemma count_app (f : event -> bool) (tr1 tr2 : trace) :
  count f (tr1 ++ tr2) = (count f tr1 + count f tr2)%nat.
Proof. unfold count. rewrite List.filter_app, length_app. reflexivity. Qed.

Lemma count_cons (f : event -> bool) (ev : event) (tr : trace) :
  count f (ev :: tr) = ((if f ev then 1 else 0) + count f tr)%nat.
Proof. unfold count. simpl. destruct (f ev); reflexivity. Qed.

Lemma count_nil (f : event -> bool) : count f [] = 0%nat.
Proof. reflexivity. Qed.

Section Properties.

Variable int_of_str : string -> option Z.

Lemma validate_required (event_data : pydict) :
  all_fields_in (VDict event_data) required_fields =
  Returned (bool_decide (is_Some (event_data !! "guild_id"))
            && bool_decide (is_Some (event_data !! "user"))).
Proof.
  simpl. repeat case_bool_decide; reflexivity.
Qed.

(** C5 (as amended): validation succeeds exactly when the event has the
    keys [guild_id] and [user] and the value under [user] contains [id]
    and [username]; the values stored under these keys are not looked at. *)
Theorem validate_is_key_presence (event_data : pydict) :
  _validate_event_data event_data = Returned true <->
  is_Some (event_data !! "guild_id") /\
  exists user_data,
    event_data !! "user" = Some user_data /\
    py_contains user_data "id" = Returned true /\
    py_contains user_data "username" = Returned true.
Proof.
  unfold _validate_event_data. rewrite validate_required.
  destruct (event_data !! "guild_id") as [g |] eqn:Hg;
    destruct (event_data !! "user") as [u |] eqn:Hu; simpl.
  - split.
    + intros H. split; [eauto |]. exists u. split; [reflexivity |].
      destruct (py_contains u "id") as [[] |]; try discriminate.
      destruct (py_contains u "username") as [[] |]; try discriminate. auto.
    + intros (_ & u' & Hu' & Hid & Hname). inversion Hu'; subst u'.
      rewrite Hid, Hname. reflexivity.
  - split; [discriminate |]. intros (_ & u' & Hu' & _). discriminate.
  - split; [discriminate |]. intros ([? ?] & _). discriminate.
  - split; [discriminate |]. intros ([? ?] & _). discriminate.
Qed.

(** C6: an event that does not pass validation leaves one ERROR line in
    the log and nothing else: no configuration lookup, no channel fetch,
    no send, no wait; the handler, which holds no record of processed
    events, is as it was. *)
Theorem invalid_event_stops (self : MemberEventHandler) (o : oracle) (tr : trace)
    (event_data : pydict) :
  _validate_event_data event_data <> Returned true ->
  exists m,
    run o tr (handle_guild_member_add int_of_str self event_data)
    = (tr ++ [EvLog ERROR m], Returned VNone).
Proof.
  intros Hinv. unfold handle_guild_member_add.
  destruct (_validate_event_data event_data) as [[] | e]; simpl.
  - congruence.
  - eauto.
  - eauto.
Qed.


(** The errors of [user['id']] and [user['username']] carry neither a
    rate-limit nor a permission marker. *)
Lemma getitem_error_unmarked (container : pyval) (key : string) (e : exn) :
  py_getitem container key = Raised e ->
  key = "id" \/ key = "username" ->
  (str_contains "rate limit" (lower (exn_msg e)) || str_contains "429" (exn_msg e) = false)
  /\ (str_contains "permission" (lower (exn_msg e)) || str_contains "403" (exn_msg e) = false).
Proof.
  intros Hget Hkey.
  destruct container; simpl in Hget;
    try (injection Hget as <-; split; reflexivity).
  destruct (d !! key); [discriminate |].
  injection Hget as <-. destruct Hkey as [-> | ->]; split; reflexivity.
Qed.

(** Case analysis on everything the shape of a coroutine depends on. *)
Ltac crunch :=
  repeat (simpl; unfold asyncio_sleep;
    match goal with
    | H : py_getitem _ _ = Raised _ |- _ =>
        let H1 := fresh in let H2 := fresh in
        destruct (getitem_error_unmarked _ _ _ H) as [H1 H2]; [auto |];
        clear H; try rewrite H1; try rewrite H2
    | |- forall _, _ => intro
    | |- _ /\ _ => split
    | |- context [lift ?x] => destruct x eqn:?
    | |- context [is_number ?x] => destruct x eqn:?
    | |- context [channel_send ?x] => destruct x eqn:?
    | |- context [is_None ?x] => destruct x eqn:?
    | |- context [if ?b then _ else _] => destruct b eqn:?
    end);
  try reflexivity; try (unfold count; simpl; lia).

(** A dispatch never waits ahead of its send. *)
Lemma send_welcome_never_waits_first (self : MemberEventHandler) (channel_id user : pyval) :
  all_runs (fun seg _ => waits_before_attempt seg = false)
           (_send_welcome_message int_of_str self channel_id user).
Proof.
  unfold _send_welcome_message, _get_channel.
  destruct (_discord_client self) as [client |]; crunch.
Qed.

(** A dispatch looks up no configuration and reports no duplicate. *)
Lemma send_welcome_no_lookup (self : MemberEventHandler) (channel_id user : pyval) :
  all_runs (fun seg _ => count is_lookup seg = 0%nat /\ count is_duplicate_report seg = 0%nat)
           (_send_welcome_message int_of_str self channel_id user).
Proof.
  unfold _send_welcome_message, _get_channel.
  destruct (_discord_client self) as [client |]; crunch.
Qed.

(** A valid event has both top-level fields. *)
Lemma valid_event_fields (event_data : pydict) :
  _validate_event_data event_data = Returned true ->
  exists guild_id user,
    event_data !! "guild_id" = Some guild_id /\ event_data !! "user" = Some user.
Proof.
  unfold _validate_event_data. rewrite validate_required.
  destruct (event_data !! "guild_id") as [g |];
    destruct (event_data !! "user") as [u |]; simpl; try discriminate.
  eauto.
Qed.

(** One delivery of a valid event: one configuration lookup, no duplicate
    report. *)
Lemma handle_valid_looks_up (self : MemberEventHandler) (event_data : pydict) :
  _validate_event_data event_data = Returned true ->
  all_runs (fun seg _ => count is_lookup seg = 1%nat /\ count is_duplicate_report seg = 0%nat)
           (handle_guild_member_add int_of_str self event_data).
Proof.
  intros Hv. destruct (valid_event_fields _ Hv) as (g & u & Hg & Hu).
  unfold handle_guild_member_add. rewrite Hv. simpl. rewrite Hg, Hu. simpl.
  intros [cid | e]; simpl; [| split; reflexivity].
  destruct (is_None cid); simpl; [split; reflexivity |].
  eapply all_runs_try_catch
    with (R1 := fun seg (_ : result pyval) =>
                  count is_lookup seg = 0%nat /\ count is_duplicate_report seg = 0%nat).
  - eapply all_runs_bind; [apply send_welcome_no_lookup | |].
    + intros seg _ [H1 H2].
      destruct (py_getitem u "id"); simpl; rewrite ?count_app, H1, H2; auto.
    + auto.
  - intros seg a [H1 H2]. rewrite !count_cons, H1, H2. auto.
  - intros seg e [H1 H2]. simpl. rewrite !count_cons, !count_app, H1, H2. auto.
Qed.


(** C3 (as amended): when the send fails with a rate-limit signal that
    carries a numeric [retry_after], the dispatcher logs a warning, waits
    that duration and returns; the send is not attempted again. *)
Theorem rate_limited_send_waits_and_returns (self : MemberEventHandler) (o : oracle)
    (tr : trace) (channel_id user : pyval) (client : nat) (n : Z) (ch : nat)
    (user_id username : pyval) (e : exn) (retry_after : pyval) :
  _discord_client self = Some client ->
  py_int int_of_str channel_id = Returned n ->
  o tr (FetchChannel client n) = Returned (VObj ch) ->
  py_getitem user "id" = Returned user_id ->
  py_getitem user "username" = Returned username ->
  o (tr ++ [EvCall (FetchChannel client n) (Returned (VObj ch))])
    (ChannelSend ch (WelcomeText user_id)) = Raised e ->
  str_contains "rate limit" (lower (exn_msg e)) || str_contains "429" (exn_msg e) = true ->
  exn_retry_after e = Some retry_after ->
  is_number retry_after = true ->
  run o tr (_send_welcome_message int_of_str self channel_id user)
  = (tr ++ [EvCall (FetchChannel client n) (Returned (VObj ch));
            EvCall (ChannelSend ch (WelcomeText user_id)) (Raised e);
            EvLog WARNING (RateLimited retry_after);
            EvSleep retry_after],
     Returned VNone).
Proof.
  intros Hclient Hint Hfetch Hid Hname Hsend Hmark Hafter Hnum.
  unfold _send_welcome_message, _get_channel.
  rewrite Hclient, Hint. simpl. rewrite Hfetch. simpl.
  rewrite Hid, Hname. simpl. rewrite Hsend. simpl.
  rewrite Hmark, Hafter. simpl. unfold asyncio_sleep. rewrite Hnum. simpl.
  rewrite <- !app_assoc. reflexivity.
Qed.

(** C4 (as amended): when the send fails with an error that carries
    neither a rate-limit nor a permission marker, the dispatcher logs it
    and raises that same error again: one attempt, no wait, no retry, and
    no failure kind of its own for having given up. *)
Theorem unmarked_failure_reraised (self : MemberEventHandler) (o : oracle)
    (tr : trace) (channel_id user : pyval) (client : nat) (n : Z) (ch : nat)
    (user_id username : pyval) (e : exn) :
  _discord_client self = Some client ->
  py_int int_of_str channel_id = Returned n ->
  o tr (FetchChannel client n) = Returned (VObj ch) ->
  py_getitem user "id" = Returned user_id ->
  py_getitem user "username" = Returned username ->
  o (tr ++ [EvCall (FetchChannel client n) (Returned (VObj ch))])
    (ChannelSend ch (WelcomeText user_id)) = Raised e ->
  str_contains "rate limit" (lower (exn_msg e)) || str_contains "429" (exn_msg e) = false ->
  str_contains "permission" (lower (exn_msg e)) || str_contains "403" (exn_msg e) = false ->
  run o tr (_send_welcome_message int_of_str self channel_id user)
  = (tr ++ [EvCall (FetchChannel client n) (Returned (VObj ch));
            EvCall (ChannelSend ch (WelcomeText user_id)) (Raised e);
            EvLog ERROR (SendFailed (exn_msg e))],
     Raised e).
Proof.
  intros Hclient Hint Hfetch Hid Hname Hsend Hrate Hperm.
  unfold _send_welcome_message, _get_channel.
  rewrite Hclient, Hint. simpl. rewrite Hfetch. simpl.
  rewrite Hid, Hname. simpl. rewrite Hsend. simpl.
  rewrite Hrate, Hperm. simpl.
  rewrite <- !app_assoc. reflexivity.
Qed.

(** C7: a valid event of a guild that has no welcome channel configured
    stops after the lookup with a warning and [None]: no fetch, no send,
    nothing recorded.  Delivered again at once, as the same event or as
    any valid event of that guild, it is looked up again and not reported
    as a duplicate.  Other guilds may well have a channel configured. *)
Theorem no_target_stops_and_is_retry_safe (self : MemberEventHandler) (o : oracle)
    (tr : trace) (event_data redelivery : pydict) (guild_id : pyval) :
  _validate_event_data event_data = Returned true ->
  event_data !! "guild_id" = Some guild_id ->
  _validate_event_data redelivery = Returned true ->
  redelivery !! "guild_id" = Some guild_id ->
  (forall tr',
     o tr' (GetWelcomeChannel (config_service self) guild_id) = Returned VNone) ->
  process_all int_of_str self o tr [event_data; redelivery]
  = (tr ++ [EvCall (GetWelcomeChannel (config_service self) guild_id) (Returned VNone);
            EvLog WARNING (NoWelcomeChannel guild_id);
            EvCall (GetWelcomeChannel (config_service self) guild_id) (Returned VNone);
            EvLog WARNING (NoWelcomeChannel guild_id)],
     [Returned VNone; Returned VNone]).
Proof.
  intros Hv Hg Hv' Hg' Hnone.
  assert (forall ev tr0,
            _validate_event_data ev = Returned true ->
            ev !! "guild_id" = Some guild_id ->
            run o tr0 (handle_guild_member_add int_of_str self ev)
            = (tr0 ++ [EvCall (GetWelcomeChannel (config_service self) guild_id)
                              (Returned VNone);
                       EvLog WARNING (NoWelcomeChannel guild_id)],
               Returned VNone)) as Hone.
  { intros ev tr0 Hev Hgev.
    destruct (valid_event_fields _ Hev) as (g & u & Hg0 & Hu).
    unfold handle_guild_member_add. rewrite Hev. simpl.
    rewrite Hgev, Hu. simpl. rewrite Hnone. simpl.
    rewrite <- !app_assoc. reflexivity. }
  simpl. rewrite (Hone event_data tr Hv Hg).
  rewrite (Hone redelivery _ Hv' Hg'). rewrite <- !app_assoc. reflexivity.
Qed.

(** C9: with no Discord client injected, a valid event whose guild has a
    welcome channel configured ends in two ERROR lines, the internal
    [RuntimeError] being caught at the handler boundary: the entry point
    returns [None] and neither a fetch nor a send is attempted. *)
Theorem missing_client_caught_at_boundary (self : MemberEventHandler) (o : oracle)
    (tr : trace) (event_data : pydict) (guild_id welcome_channel_id : pyval) :
  _validate_event_data event_data = Returned true ->
  event_data !! "guild_id" = Some guild_id ->
  o tr (GetWelcomeChannel (config_service self) guild_id) = Returned welcome_channel_id ->
  is_None welcome_channel_id = false ->
  _discord_client self = None ->
  run o tr (handle_guild_member_add int_of_str self event_data)
  = (tr ++ [EvCall (GetWelcomeChannel (config_service self) guild_id)
                   (Returned welcome_channel_id);
            EvLog ERROR (SendFailed "Discord client not initialized");
            EvLog ERROR (ProcessFailed guild_id "Discord client not initialized")],
     Returned VNone).
Proof.
  intros Hv Hg Hcfg Hsome Hclient.
  destruct (valid_event_fields _ Hv) as (g & u & Hg' & Hu).
  rewrite Hg in Hg'. injection Hg' as <-.
  unfold handle_guild_member_add, _send_welcome_message, _get_channel.
  rewrite Hv, Hclient. simpl. rewrite Hg, Hu. simpl. rewrite Hcfg. simpl.
  rewrite Hsome. simpl. rewrite <- !app_assoc. reflexivity.
Qed.

(** C10: with a client injected, whenever the channel fetch raises if it
    is reached at all (so also when [int(channel_id)] fails before it),
    [_get_channel] returns [None] instead of raising, and
    [_send_welcome_message] returns without any send. *)
Theorem fetch_failure_gives_None (self : MemberEventHandler) (o : oracle)
    (tr : trace) (channel_id user : pyval) (client : nat) :
  _discord_client self = Some client ->
  (forall n, py_int int_of_str channel_id = Returned n ->
             exists e, o tr (FetchChannel client n) = Raised e) ->
  (run o tr (_get_channel int_of_str self channel_id)).2 = Returned VNone
  /\ (run o tr (_send_welcome_message int_of_str self channel_id user)).2 = Returned VNone
  /\ count is_send (run o tr (_send_welcome_message int_of_str self channel_id user)).1
     = count is_send tr.
Proof.
  intros Hclient Hfetch.
  unfold _send_welcome_message, _get_channel. rewrite Hclient.
  destruct (py_int int_of_str channel_id) as [n | e] eqn:Hint; simpl.
  - destruct (Hfetch n eq_refl) as [e He]. rewrite He. simpl.
    repeat split; rewrite ?count_app, ?count_cons, ?count_nil; simpl; lia.
  - repeat split; rewrite ?count_app, ?count_cons, ?count_nil; simpl; lia.
Qed.

(** ** Further properties of the handler *)

(** One dispatch: no lookup, and at most one fetch, one send, one wait. *)
Lemma send_welcome_bounded (self : MemberEventHandler) (channel_id user : pyval) :
  all_runs (fun seg _ =>
              count is_lookup seg = 0%nat /\ (count is_fetch seg <= 1)%nat
              /\ (count is_send seg <= 1)%nat /\ (count is_sleep seg <= 1)%nat)
           (_send_welcome_message int_of_str self channel_id user).
Proof.
  unfold _send_welcome_message, _get_channel.
  destruct (_discord_client self) as [client |]; crunch.
Qed.

(** One delivery of a valid event, step by step: the lookup, then what
    its answer leads to. *)
Lemma run_handle_valid (self : MemberEventHandler) (o : oracle) (tr : trace)
    (event_data : pydict) (g u : pyval) :
  _validate_event_data event_data = Returned true ->
  event_data !! "guild_id" = Some g ->
  event_data !! "user" = Some u ->
  run o tr (handle_guild_member_add int_of_str self event_data) =
  let c := GetWelcomeChannel (config_service self) g in
  match o tr c with
  | Raised e =>
      (tr ++ [EvCall c (Raised e); EvLog ERROR (ProcessFailed g (exn_msg e))],
       Returned VNone)
  | Returned cid =>
      if is_None cid then
        (tr ++ [EvCall c (Returned cid); EvLog WARNING (NoWelcomeChannel g)],
         Returned VNone)
      else
        match run o (tr ++ [EvCall c (Returned cid)])
                  (_send_welcome_message int_of_str self cid u) with
        | (tr1, Raised e) =>
            (tr1 ++ [EvLog ERROR (ProcessFailed g (exn_msg e))], Returned VNone)
        | (tr1, Returned _) =>
            match py_getitem u "id" with
            | Returned user_id =>
                (tr1 ++ [EvLog INFO (WelcomeSent user_id g)], Returned VNone)
            | Raised e =>
                (tr1 ++ [EvLog ERROR (ProcessFailed g (exn_msg e))], Returned VNone)
            end
        end
  end.
Proof.
  intros Hv Hg Hu. unfold handle_guild_member_add.
  rewrite Hv. simpl. rewrite Hg, Hu. simpl.
  destruct (o tr (GetWelcomeChannel (config_service self) g)) as [cid | e]; simpl.
  - destruct (is_None cid); simpl.
    + rewrite <- app_assoc. reflexivity.
    + rewrite run_try_catch, run_bind.
      destruct (run o (tr ++ [EvCall (GetWelcomeChannel (config_service self) g)
                                       (Returned cid)])
                    (_send_welcome_message int_of_str self cid u)) as [tr1 [v | e]];
        [| reflexivity].
      destruct (py_getitem u "id") as [user_id | e]; reflexivity.
  - rewrite <- app_assoc. reflexivity.
Qed.

Ltac counts :=
  repeat first [rewrite count_cons | rewrite count_app | rewrite count_nil];
  simpl; lia.

(** X1: one delivery, whatever the event and whatever the collaborators
    answer, makes at most one configuration lookup, one channel fetch, one
    send and one wait. *)
Theorem delivery_calls_at_most_once (self : MemberEventHandler) (o : oracle)
    (tr : trace) (event_data : pydict) :
  exists seg,
    (run o tr (handle_guild_member_add int_of_str self event_data)).1 = tr ++ seg
    /\ (count is_lookup seg <= 1)%nat /\ (count is_fetch seg <= 1)%nat
    /\ (count is_send seg <= 1)%nat /\ (count is_sleep seg <= 1)%nat.
Proof.
  destruct (_validate_event_data event_data) as [[] | e] eqn:Hv.
  - destruct (valid_event_fields _ Hv) as (g & u & Hg & Hu).
    rewrite (run_handle_valid self o tr event_data g u Hv Hg Hu). simpl.
    destruct (o tr (GetWelcomeChannel (config_service self) g)) as [cid | e].
    + destruct (is_None cid).
      * eexists. split; [reflexivity |]. repeat split; counts.
      * destruct (all_runs_run o _ _ (send_welcome_bounded self cid u)
                    (tr ++ [EvCall (GetWelcomeChannel (config_service self) g)
                                   (Returned cid)]))
          as (seg & r & Hrun & Hl & Hf & Hs & Hw).
        rewrite Hrun.
        destruct r as [v | e]; [destruct (py_getitem u "id") |]; simpl;
          rewrite <- !app_assoc; (eexists; split; [reflexivity |]);
          repeat split; counts.
    + eexists. split; [reflexivity |]. repeat split; counts.
  - unfold handle_guild_member_add. rewrite Hv. simpl.
    eexists. split; [reflexivity |]. repeat split; counts.
  - unfold handle_guild_member_add. rewrite Hv. simpl.
    eexists. split; [reflexivity |]. repeat split; counts.
Qed.

(** X2: a send is always addressed as configured.  If a dispatch sends at
    all, it has first fetched [int(channel_id)] through the injected
    client, got a channel object, and its one send goes to that object with
    the mention of [user['id']]; [user['username']] was readable too. *)
Theorem send_is_addressed (self : MemberEventHandler) (o : oracle) (tr : trace)
    (channel_id user : pyval) :
  exists seg,
    (run o tr (_send_welcome_message int_of_str self channel_id user)).1 = tr ++ seg
    /\ (count is_send seg = 0%nat
        \/ exists client n ch user_id username r rest,
             seg = EvCall (FetchChannel client n) (Returned (VObj ch))
                   :: EvCall (ChannelSend ch (WelcomeText user_id)) r :: rest
             /\ count is_send rest = 0%nat
             /\ _discord_client self = Some client
             /\ py_int int_of_str channel_id = Returned n
             /\ py_getitem user "id" = Returned user_id
             /\ py_getitem user "username" = Returned username).
Proof.
  assert (all_runs
            (fun seg (_ : result pyval) =>
               count is_send seg = 0%nat
               \/ exists client n ch user_id username r rest,
                    seg = EvCall (FetchChannel client n) (Returned (VObj ch))
                          :: EvCall (ChannelSend ch (WelcomeText user_id)) r :: rest
                    /\ count is_send rest = 0%nat
                    /\ _discord_client self = Some client
                    /\ py_int int_of_str channel_id = Returned n
                    /\ py_getitem user "id" = Returned user_id
                    /\ py_getitem user "username" = Returned username)
            (_send_welcome_message int_of_str self channel_id user)) as Hall.
  { unfold _send_welcome_message, _get_channel.
    destruct (_discord_client self) as [client |]; crunch;
      first [left; reflexivity | right; repeat eexists]. }
  destruct (all_runs_run o _ _ Hall tr) as (seg & r & Hrun & Hseg).
  exists seg. rewrite Hrun. auto.
Qed.

(** X3: a dispatch waits only after a rate-limited send.  If it waits at
    all, its whole trace is: the fetch, the send that raised an error whose
    message holds "rate limit" (in any case) or "429", the warning, and one
    wait of the error's [retry_after], or of 5.0 when it has none; and the
    dispatch returns [None]. *)
Theorem wait_only_after_rate_limited_send (self : MemberEventHandler) (o : oracle)
    (tr : trace) (channel_id user : pyval) :
  exists seg r,
    run o tr (_send_welcome_message int_of_str self channel_id user) = (tr ++ seg, r)
    /\ (count is_sleep seg = 0%nat
        \/ exists client n ch user_id e delay,
             seg = [EvCall (FetchChannel client n) (Returned (VObj ch));
                    EvCall (ChannelSend ch (WelcomeText user_id)) (Raised e);
                    EvLog WARNING (RateLimited delay);
                    EvSleep delay]
             /\ delay = default (VFloat (5 # 1)) (exn_retry_after e)
             /\ str_contains "rate limit" (lower (exn_msg e))
                || str_contains "429" (exn_msg e) = true
             /\ r = Returned VNone).
Proof.
  apply all_runs_run.
  unfold _send_welcome_message, _get_channel.
  destruct (_discord_client self) as [client |]; crunch;
    first [left; reflexivity
          | right; repeat eexists; first [eassumption | symmetry; eassumption]].
Qed.

(** X4: a send refused for lack of permission is swallowed.  When the
    error's message holds "permission" (in any case) or "403" and no
    rate-limit marker, the dispatch logs one ERROR line and returns [None]:
    it neither raises, waits, nor tries again. *)
Theorem permission_denied_is_swallowed (self : MemberEventHandler) (o : oracle)
    (tr : trace) (channel_id user : pyval) (client : nat) (n : Z) (ch : nat)
    (user_id username : pyval) (e : exn) :
  _discord_client self = Some client ->
  py_int int_of_str channel_id = Returned n ->
  o tr (FetchChannel client n) = Returned (VObj ch) ->
  py_getitem user "id" = Returned user_id ->
  py_getitem user "username" = Returned username ->
  o (tr ++ [EvCall (FetchChannel client n) (Returned (VObj ch))])
    (ChannelSend ch (WelcomeText user_id)) = Raised e ->
  str_contains "rate limit" (lower (exn_msg e)) || str_contains "429" (exn_msg e) = false ->
  str_contains "permission" (lower (exn_msg e)) || str_contains "403" (exn_msg e) = true ->
  run o tr (_send_welcome_message int_of_str self channel_id user)
  = (tr ++ [EvCall (FetchChannel client n) (Returned (VObj ch));
            EvCall (ChannelSend ch (WelcomeText user_id)) (Raised e);
            EvLog ERROR (PermissionDenied channel_id)],
     Returned VNone).
Proof.
  intros Hclient Hint Hfetch Hid Hname Hsend Hrate Hperm.
  unfold _send_welcome_message, _get_channel.
  rewrite Hclient, Hint. simpl. rewrite Hfetch. simpl.
  rewrite Hid, Hname. simpl. rewrite Hsend. simpl.
  rewrite Hrate, Hperm. simpl.
  rewrite <- !app_assoc. reflexivity.
Qed.

(** A dispatch in which everything succeeds. *)
Lemma run_send_success (self : MemberEventHandler) (o : oracle)
    (tr : trace) (channel_id user : pyval) (client : nat) (n : Z) (ch : nat)
    (user_id username sent : pyval) :
  _discord_client self = Some client ->
  py_int int_of_str channel_id = Returned n ->
  o tr (FetchChannel client n) = Returned (VObj ch) ->
  py_getitem user "id" = Returned user_id ->
  py_getitem user "username" = Returned username ->
  o (tr ++ [EvCall (FetchChannel client n) (Returned (VObj ch))])
    (ChannelSend ch (WelcomeText user_id)) = Returned sent ->
  run o tr (_send_welcome_message int_of_str self channel_id user)
  = (tr ++ [EvCall (FetchChannel client n) (Returned (VObj ch));
            EvCall (ChannelSend ch (WelcomeText user_id)) (Returned sent);
            EvLog INFO (SentToChannel channel_id username user_id)],
     Returned VNone).
Proof.
  intros Hclient Hint Hfetch Hid Hname Hsend.
  unfold _send_welcome_message, _get_channel.
  rewrite Hclient, Hint. simpl. rewrite Hfetch. simpl.
  rewrite Hid, Hname. simpl. rewrite Hsend. simpl.
  rewrite <- !app_assoc. reflexivity.
Qed.

(** A dispatch whose fetch gives [None]. *)
Lemma run_send_channel_gone (self : MemberEventHandler) (o : oracle)
    (tr : trace) (channel_id user : pyval) (client : nat) (n : Z) :
  _discord_client self = Some client ->
  py_int int_of_str channel_id = Returned n ->
  o tr (FetchChannel client n) = Returned VNone ->
  run o tr (_send_welcome_message int_of_str self channel_id user)
  = (tr ++ [EvCall (FetchChannel client n) (Returned VNone);
            EvLog ERROR (ChannelNotFound channel_id)],
     Returned VNone).
Proof.
  intros Hclient Hint Hfetch.
  unfold _send_welcome_message, _get_channel.
  rewrite Hclient, Hint. simpl. rewrite Hfetch. simpl.
  rewrite <- !app_assoc. reflexivity.
Qed.

(** A dispatch with no client injected. *)
Lemma run_send_no_client (self : MemberEventHandler) (o : oracle)
    (tr : trace) (channel_id user : pyval) :
  _discord_client self = None ->
  run o tr (_send_welcome_message int_of_str self channel_id user)
  = (tr ++ [EvLog ERROR (SendFailed "Discord client not initialized")],
     Raised (RuntimeError "Discord client not initialized")).
Proof.
  intros Hclient. unfold _send_welcome_message, _get_channel.
  rewrite Hclient. reflexivity.
Qed.

(** X5: the successful delivery.  For a valid event whose guild has a
    channel configured, with a client injected, a fetch that gives a
    channel object and a send that is accepted, the delivery is exactly:
    lookup of the event's guild, fetch of [int(channel_id)], one send
    mentioning the user's id, and two INFO lines; it returns [None]. *)
Theorem successful_delivery (self : MemberEventHandler) (o : oracle) (tr : trace)
    (event_data : pydict) (guild_id user welcome_channel_id : pyval)
    (client : nat) (n : Z) (ch : nat) (user_id username sent : pyval) :
  _validate_event_data event_data = Returned true ->
  event_data !! "guild_id" = Some guild_id ->
  event_data !! "user" = Some user ->
  py_getitem user "id" = Returned user_id ->
  py_getitem user "username" = Returned username ->
  _discord_client self = Some client ->
  o tr (GetWelcomeChannel (config_service self) guild_id) = Returned welcome_channel_id ->
  is_None welcome_channel_id = false ->
  py_int int_of_str welcome_channel_id = Returned n ->
  o (tr ++ [EvCall (GetWelcomeChannel (config_service self) guild_id)
                   (Returned welcome_channel_id)])
    (FetchChannel client n) = Returned (VObj ch) ->
  o (tr ++ [EvCall (GetWelcomeChannel (config_service self) guild_id)
                   (Returned welcome_channel_id);
            EvCall (FetchChannel client n) (Returned (VObj ch))])
    (ChannelSend ch (WelcomeText user_id)) = Returned sent ->
  run o tr (handle_guild_member_add int_of_str self event_data)
  = (tr ++ [EvCall (GetWelcomeChannel (config_service self) guild_id)
                   (Returned welcome_channel_id);
            EvCall (FetchChannel client n) (Returned (VObj ch));
            EvCall (ChannelSend ch (WelcomeText user_id)) (Returned sent);
            EvLog INFO (SentToChannel welcome_channel_id username user_id);
            EvLog INFO (WelcomeSent user_id guild_id)],
     Returned VNone).
Proof.
  intros Hv Hg Hu Hid Hname Hclient Hcfg Hsome Hint Hfetch Hsend.
  rewrite (run_handle_valid self o tr event_data guild_id user Hv Hg Hu). simpl.
  rewrite Hcfg, Hsome.
  rewrite (run_send_success self o _ welcome_channel_id user client n ch
             user_id username sent Hclient Hint Hfetch Hid Hname).
  - rewrite Hid, <- !app_assoc. reflexivity.
  - rewrite <- app_assoc. exact Hsend.
Qed.

(** X6: a configured channel that cannot be found.  When the fetch gives
    [None], nothing is sent and "Welcome channel not found" is logged; the
    dispatch having returned normally, the handler still logs its
    "Welcome message sent" line and returns [None]. *)
Theorem channel_gone_logged_and_reported_sent (self : MemberEventHandler) (o : oracle)
    (tr : trace) (event_data : pydict) (guild_id user welcome_channel_id : pyval)
    (client : nat) (n : Z) (user_id : pyval) :
  _validate_event_data event_data = Returned true ->
  event_data !! "guild_id" = Some guild_id ->
  event_data !! "user" = Some user ->
  py_getitem user "id" = Returned user_id ->
  _discord_client self = Some client ->
  o tr (GetWelcomeChannel (config_service self) guild_id) = Returned welcome_channel_id ->
  is_None welcome_channel_id = false ->
  py_int int_of_str welcome_channel_id = Returned n ->
  o (tr ++ [EvCall (GetWelcomeChannel (config_service self) guild_id)
                   (Returned welcome_channel_id)])
    (FetchChannel client n) = Returned VNone ->
  run o tr (handle_guild_member_add int_of_str self event_data)
  = (tr ++ [EvCall (GetWelcomeChannel (config_service self) guild_id)
                   (Returned welcome_channel_id);
            EvCall (FetchChannel client n) (Returned VNone);
            EvLog ERROR (ChannelNotFound welcome_channel_id);
            EvLog INFO (WelcomeSent user_id guild_id)],
     Returned VNone).
Proof.
  intros Hv Hg Hu Hid Hclient Hcfg Hsome Hint Hfetch.
  rewrite (run_handle_valid self o tr event_data guild_id user Hv Hg Hu). simpl.
  rewrite Hcfg, Hsome.
  rewrite (run_send_channel_gone self o _ welcome_channel_id user client n
             Hclient Hint Hfetch).
  rewrite Hid, <- !app_assoc. reflexivity.
Qed.

(** X7: a failing configuration service.  When the lookup raises, the
    delivery ends there with one ERROR line that names the event's guild
    and the error's message; nothing is fetched or sent and [None] is
    returned. *)
Theorem config_error_is_logged (self : MemberEventHandler) (o : oracle)
    (tr : trace) (event_data : pydict) (guild_id : pyval) (e : exn) :
  _validate_event_data event_data = Returned true ->
  event_data !! "guild_id" = Some guild_id ->
  o tr (GetWelcomeChannel (config_service self) guild_id) = Raised e ->
  run o tr (handle_guild_member_add int_of_str self event_data)
  = (tr ++ [EvCall (GetWelcomeChannel (config_service self) guild_id) (Raised e);
            EvLog ERROR (ProcessFailed guild_id (exn_msg e))],
     Returned VNone).
Proof.
  intros Hv Hg Hcfg.
  destruct (valid_event_fields _ Hv) as (g & u & Hg' & Hu).
  rewrite Hg in Hg'. injection Hg' as <-.
  rewrite (run_handle_valid self o tr event_data guild_id u Hv Hg Hu). simpl.
  rewrite Hcfg. reflexivity.
Qed.

(** X8: once a client is injected, [_get_channel] never raises.  It gives
    what the fetch of [int(channel_id)] gave; when [int] or the fetch
    raises it logs one ERROR line and gives [None]. *)
Theorem get_channel_with_client_never_raises (self : MemberEventHandler) (client : nat)
    (o : oracle) (tr : trace) (channel_id : pyval) :
  exists seg v,
    run o tr (_get_channel int_of_str (set_discord_client self client) channel_id)
    = (tr ++ seg, Returned v)
    /\ ((exists n, py_int int_of_str channel_id = Returned n
                   /\ seg = [EvCall (FetchChannel client n) (Returned v)])
        \/ (exists n e, py_int int_of_str channel_id = Returned n
                        /\ v = VNone
                        /\ seg = [EvCall (FetchChannel client n) (Raised e);
                                  EvLog ERROR (FetchFailed channel_id (exn_msg e))])
        \/ (exists e, py_int int_of_str channel_id = Raised e
                      /\ v = VNone
                      /\ seg = [EvLog ERROR (FetchFailed channel_id (exn_msg e))])).
Proof.
  unfold _get_channel, set_discord_client. simpl.
  destruct (py_int int_of_str channel_id) as [n | e]; simpl.
  - destruct (o tr (FetchChannel client n)) as [v | e] eqn:Hfetch; simpl.
    + exists [EvCall (FetchChannel client n) (Returned v)], v. eauto.
    + exists [EvCall (FetchChannel client n) (Raised e);
              EvLog ERROR (FetchFailed channel_id (exn_msg e))], VNone.
      rewrite <- app_assoc. split; [reflexivity |]. right; left. eauto.
  - exists [EvLog ERROR (FetchFailed channel_id (exn_msg e))], VNone.
    split; [reflexivity |]. right; right. eauto.
Qed.

(** Without a client, a delivery makes no fetch, no send and no wait. *)
Lemma no_client_quiet (self : MemberEventHandler) (o : oracle) (tr : trace)
    (event_data : pydict) :
  _discord_client self = None ->
  exists seg,
    (run o tr (handle_guild_member_add int_of_str self event_data)).1 = tr ++ seg
    /\ count is_fetch seg = 0%nat /\ count is_send seg = 0%nat
    /\ count is_sleep seg = 0%nat.
Proof.
  intros Hclient.
  destruct (_validate_event_data event_data) as [[] | e] eqn:Hv.
  - destruct (valid_event_fields _ Hv) as (g & u & Hg & Hu).
    rewrite (run_handle_valid self o tr event_data g u Hv Hg Hu). simpl.
    destruct (o tr (GetWelcomeChannel (config_service self) g)) as [cid | e].
    + destruct (is_None cid).
      * eexists. split; [reflexivity |]. repeat split; counts.
      * rewrite (run_send_no_client self o _ cid u Hclient). simpl.
        rewrite <- !app_assoc. eexists. split; [reflexivity |].
        repeat split; counts.
    + eexists. split; [reflexivity |]. repeat split; counts.
  - unfold handle_guild_member_add. rewrite Hv. simpl.
    eexists. split; [reflexivity |]. repeat split; counts.
  - unfold handle_guild_member_add. rewrite Hv. simpl.
    eexists. split; [reflexivity |]. repeat split; counts.
Qed.

(** X9: a freshly constructed handler, with no client injected, never
    reaches Discord: whatever the event and the collaborators, a delivery
    makes no fetch, no send and no wait. *)
Theorem no_client_no_discord_call (config_service0 : nat) (o : oracle) (tr : trace)
    (event_data : pydict) :
  exists seg,
    (run o tr (handle_guild_member_add int_of_str (__init__ config_service0) event_data)).1
    = tr ++ seg
    /\ count is_fetch seg = 0%nat /\ count is_send seg = 0%nat
    /\ count is_sleep seg = 0%nat.
Proof.
  apply no_client_quiet. reflexivity.
Qed.

(** When validation raises, the event has a [guild_id]. *)
Lemma validate_raised_has_guild (event_data : pydict) (e : exn) :
  _validate_event_data event_data = Raised e -> is_Some (event_data !! "guild_id").
Proof.
  unfold _validate_event_data. rewrite validate_required.
  destruct (event_data !! "guild_id") as [g |]; [eauto |].
  simpl. discriminate.
Qed.

(** X10: validation raises instead of answering exactly when both
    top-level keys are present and the value under [user] is not a
    container ([None], a number, a bool, an object): the membership test
    on it is a [TypeError]. *)
Theorem validate_raises_iff_user_not_container (event_data : pydict) :
  (exists e, _validate_event_data event_data = Raised e) <->
  is_Some (event_data !! "guild_id") /\
  exists user_data,
    event_data !! "user" = Some user_data /\ is_container user_data = false.
Proof.
  unfold _validate_event_data. rewrite validate_required.
  destruct (event_data !! "guild_id") as [g |];
    destruct (event_data !! "user") as [u |]; simpl.
  - split.
    + intros [e He]. split; [eauto |]. exists u. split; [reflexivity |].
      destruct u; simpl in *; try reflexivity.
      * destruct (str_contains "id" s); [destruct (str_contains "username" s) |];
          discriminate.
      * destruct (existsb (is_str "id") l); [destruct (existsb (is_str "username") l) |];
          discriminate.
      * repeat case_bool_decide; discriminate.
    + intros (_ & u' & Hu' & Hc). injection Hu' as <-.
      destruct u; simpl in *; try discriminate; eauto.
  - split; [intros [e He]; discriminate |].
    intros (_ & u' & Hu' & _). discriminate.
  - split; [intros [e He]; discriminate |].
    intros ([? ?] & _). discriminate.
  - split; [intros [e He]; discriminate |].
    intros ([? ?] & _). discriminate.
Qed.

(** A dispatch writes no "Failed to process member join" line. *)
Lemma send_welcome_no_failure_line (self : MemberEventHandler) (channel_id user : pyval) :
  all_runs (fun seg _ => Forall (fun x => failure_guild x = None) seg)
           (_send_welcome_message int_of_str self channel_id user).
Proof.
  unfold _send_welcome_message, _get_channel.
  destruct (_discord_client self) as [client |]; crunch; repeat constructor.
Qed.

(** X11: every "Failed to process member join" line of a delivery names
    the event's own guild: for an event that is a dict the "unknown"
    placeholder is never logged. *)
Theorem failure_line_names_the_guild (self : MemberEventHandler) (o : oracle)
    (tr : trace) (event_data : pydict) :
  exists seg,
    (run o tr (handle_guild_member_add int_of_str self event_data)).1 = tr ++ seg
    /\ Forall (fun x => forall g, failure_guild x = Some g ->
                                  event_data !! "guild_id" = Some g) seg.
Proof.
  destruct (_validate_event_data event_data) as [[] | e] eqn:Hv.
  - destruct (valid_event_fields _ Hv) as (g & u & Hg & Hu).
    rewrite (run_handle_valid self o tr event_data g u Hv Hg Hu). simpl.
    destruct (o tr (GetWelcomeChannel (config_service self) g)) as [cid | e].
    + destruct (is_None cid).
      * eexists. split; [reflexivity |].
        repeat constructor; simpl; intros; congruence.
      * destruct (all_runs_run o _ _ (send_welcome_no_failure_line self cid u)
                    (tr ++ [EvCall (GetWelcomeChannel (config_service self) g)
                                   (Returned cid)]))
          as (seg & r & Hrun & Hnone).
        rewrite Hrun.
        assert (Forall (fun x => forall g0, failure_guild x = Some g0 ->
                                            event_data !! "guild_id" = Some g0) seg)
          as Hseg.
        { eapply Forall_impl; [exact Hnone |]. simpl. intros x Hx g0 Hg0. congruence. }
        destruct r as [v | e]; [destruct (py_getitem u "id") |]; simpl;
          rewrite <- !app_assoc; (eexists; split; [reflexivity |]);
          simpl; constructor; try (simpl; intros; congruence);
          apply Forall_app; split; auto;
          repeat constructor; simpl; intros; congruence.
    + eexists. split; [reflexivity |].
      repeat constructor; simpl; intros; congruence.
  - unfold handle_guild_member_add. rewrite Hv. simpl.
    eexists. split; [reflexivity |]. repeat constructor; simpl; intros; congruence.
  - destruct (validate_raised_has_guild _ _ Hv) as [g Hg].
    unfold handle_guild_member_add. rewrite Hv. simpl. rewrite Hg. simpl.
    eexists. split; [reflexivity |]. repeat constructor; simpl; intros; congruence.
Qed.

(** X12: validation looks at nothing but [guild_id] and [user]: adding or
    changing any other top-level field leaves its answer unchanged. *)
Theorem validate_ignores_other_fields (event_data : pydict) (key : string) (v : pyval) :
  key <> "guild_id" -> key <> "user" ->
  _validate_event_data (<[key := v]> event_data) = _validate_event_data event_data.
Proof.
  intros Hg Hu. unfold _validate_event_data. rewrite !validate_required.
  rewrite !lookup_insert_ne by congruence. reflexivity.
Qed.


(** ** Redelivery, dispatch and waiting *)

Lemma has_key_valid (guild_id user_id : pyval) (event_data : pydict) :
  has_key guild_id user_id event_data ->
  _validate_event_data event_data = Returned true.
Proof.
  intros (Hg & u & name & Hu & Hid & Hname).
  unfold _validate_event_data. rewrite validate_required, Hg, Hu. simpl.
  destruct u; simpl in Hid, Hname; try discriminate.
  simpl. destruct (d !! "id"); [| discriminate].
  destruct (d !! "username"); [| discriminate]. reflexivity.
Qed.

(** With a client, a channel id that [int] accepts, a fetch that gives a
    channel object and a user whose id and name can be read, a dispatch
    fetches and at once sends, and sends only once. *)
Lemma run_send_attempts (self : MemberEventHandler) (o : oracle) (tr : trace)
    (channel_id user : pyval) (client : nat) (n : Z) (ch : nat)
    (user_id username : pyval) :
  _discord_client self = Some client ->
  py_int int_of_str channel_id = Returned n ->
  o tr (FetchChannel client n) = Returned (VObj ch) ->
  py_getitem user "id" = Returned user_id ->
  py_getitem user "username" = Returned username ->
  exists r rest res,
    run o tr (_send_welcome_message int_of_str self channel_id user)
    = (tr ++ EvCall (FetchChannel client n) (Returned (VObj ch))
          :: EvCall (ChannelSend ch (WelcomeText user_id)) r :: rest, res)
    /\ count is_send rest = 0%nat.
Proof.
  intros Hclient Hint Hfetch Hid Hname.
  unfold _send_welcome_message, _get_channel.
  rewrite Hclient, Hint. simpl. rewrite Hfetch. simpl.
  rewrite Hid, Hname. simpl.
  destruct (o (tr ++ [EvCall (FetchChannel client n) (Returned (VObj ch))])
              (ChannelSend ch (WelcomeText user_id))) as [v | e]; simpl.
  - do 3 eexists. rewrite <- !app_assoc. split; [reflexivity | reflexivity].
  - destruct (str_contains "rate limit" (lower (exn_msg e))
              || str_contains "429" (exn_msg e)); simpl.
    + unfold asyncio_sleep.
      destruct (is_number (default (VFloat (5 # 1)) (exn_retry_after e))); simpl;
        do 3 eexists; rewrite <- !app_assoc; (split; [reflexivity | reflexivity]).
    + destruct (str_contains "permission" (lower (exn_msg e))
                || str_contains "403" (exn_msg e)); simpl;
        do 3 eexists; rewrite <- !app_assoc; (split; [reflexivity | reflexivity]).
Qed.

(** Deliveries of valid events: one lookup each, no duplicate report. *)
Lemma process_all_lookups (self : MemberEventHandler) (o : oracle)
    (events : list pydict) :
  Forall (fun event_data => _validate_event_data event_data = Returned true) events ->
  forall tr,
    count is_lookup (process_all int_of_str self o tr events).1
      = (count is_lookup tr + length events)%nat
    /\ count is_duplicate_report (process_all int_of_str self o tr events).1
      = count is_duplicate_report tr.
Proof.
  induction 1 as [| event_data events Hv _ IH]; intros tr; simpl.
  - split; [lia | reflexivity].
  - destruct (all_runs_run o _ _ (handle_valid_looks_up self event_data Hv) tr)
      as (seg & r & Hrun & Hl & Hd).
    rewrite Hrun.
    destruct (process_all int_of_str self o (tr ++ seg) events) as [tr2 rs] eqn:Hrest.
    specialize (IH (tr ++ seg)). rewrite Hrest in IH. simpl in *.
    destruct IH as [IH1 IH2]. rewrite IH1, IH2, !count_app, Hl, Hd. split; lia.
Qed.

(** One delivery to a configured channel that can be fetched: one send. *)
Lemma handle_key_sends (self : MemberEventHandler) (o : oracle) (tr : trace)
    (event_data : pydict) (guild_id user_id welcome_channel_id : pyval)
    (client : nat) (n : Z) (ch : nat) :
  has_key guild_id user_id event_data ->
  _discord_client self = Some client ->
  o tr (GetWelcomeChannel (config_service self) guild_id) = Returned welcome_channel_id ->
  is_None welcome_channel_id = false ->
  py_int int_of_str welcome_channel_id = Returned n ->
  (forall tr0, o tr0 (FetchChannel client n) = Returned (VObj ch)) ->
  exists seg r,
    run o tr (handle_guild_member_add int_of_str self event_data) = (tr ++ seg, r)
    /\ count is_send seg = 1%nat.
Proof.
  intros Hkey Hclient Hcfg Hsome Hint Hfetch.
  pose proof (has_key_valid _ _ _ Hkey) as Hv.
  destruct Hkey as (Hg & u & name & Hu & Hid & Hname).
  rewrite (run_handle_valid self o tr event_data guild_id u Hv Hg Hu). simpl.
  rewrite Hcfg, Hsome.
  destruct (run_send_attempts self o
              (tr ++ [EvCall (GetWelcomeChannel (config_service self) guild_id)
                             (Returned welcome_channel_id)])
              welcome_channel_id u client n ch user_id name
              Hclient Hint (Hfetch _) Hid Hname)
    as (r & rest & res & Hrun & Hrest).
  rewrite Hrun, Hid.
  destruct res as [v | e]; rewrite <- !app_assoc; do 2 eexists;
    (split; [reflexivity |]);
    repeat first [rewrite count_cons | rewrite count_app | rewrite count_nil];
    rewrite Hrest; reflexivity.
Qed.

Lemma process_all_sends (self : MemberEventHandler) (o : oracle)
    (guild_id user_id welcome_channel_id : pyval) (client : nat) (n : Z) (ch : nat)
    (events : list pydict) :
  Forall (has_key guild_id user_id) events ->
  _discord_client self = Some client ->
  (forall tr0, o tr0 (GetWelcomeChannel (config_service self) guild_id)
               = Returned welcome_channel_id) ->
  is_None welcome_channel_id = false ->
  py_int int_of_str welcome_channel_id = Returned n ->
  (forall tr0, o tr0 (FetchChannel client n) = Returned (VObj ch)) ->
  forall tr,
    count is_send (process_all int_of_str self o tr events).1
    = (count is_send tr + length events)%nat.
Proof.
  intros Hkeys Hclient Hcfg Hsome Hint Hfetch.
  induction Hkeys as [| event_data events Hkey _ IH]; intros tr; simpl.
  - lia.
  - destruct (handle_key_sends self o tr event_data guild_id user_id welcome_channel_id
                client n ch Hkey Hclient (Hcfg tr) Hsome Hint Hfetch)
      as (seg & r & Hrun & Hseg).
    rewrite Hrun.
    destruct (process_all int_of_str self o (tr ++ seg) events) as [tr2 rs] eqn:Hrest.
    specialize (IH (tr ++ seg)). rewrite Hrest in IH. simpl in *.
    rewrite IH, count_app, Hseg. lia.
Qed.

(** C1 (as amended): the duplicate check is a stub that answers "not a
    duplicate" every time.  Of any sequence of valid events with one
    (guild, user) key, every one goes on to the configuration lookup and
    none is reported as a duplicate; and where the guild has a channel
    configured, a client is injected and the channel can be fetched, every
    one is dispatched: there are as many sends as deliveries. *)
Theorem every_delivery_is_dispatched (self : MemberEventHandler) (o : oracle)
    (guild_id user_id : pyval) (events : list pydict) (tr : trace) :
  Forall (has_key guild_id user_id) events ->
  (count is_lookup (process_all int_of_str self o tr events).1
     = (count is_lookup tr + length events)%nat
   /\ count is_duplicate_report (process_all int_of_str self o tr events).1
     = count is_duplicate_report tr)
  /\ (forall (client : nat) (welcome_channel_id : pyval) (n : Z) (ch : nat),
        _discord_client self = Some client ->
        (forall tr0, o tr0 (GetWelcomeChannel (config_service self) guild_id)
                     = Returned welcome_channel_id) ->
        is_None welcome_channel_id = false ->
        py_int int_of_str welcome_channel_id = Returned n ->
        (forall tr0, o tr0 (FetchChannel client n) = Returned (VObj ch)) ->
        count is_send (process_all int_of_str self o tr events).1
        = (count is_send tr + length events)%nat).
Proof.
  intros Hkeys. split.
  - apply process_all_lookups.
    eapply Forall_impl; [exact Hkeys |]. intros ev. apply has_key_valid.
  - intros client cid n ch Hclient Hcfg Hsome Hint Hfetch.
    eapply process_all_sends; eauto.
Qed.

(** A dispatch never waits ahead of its send, and when it waits its trace
    is that of a rate-limited send. *)
Lemma send_welcome_wait_shape (self : MemberEventHandler) (channel_id user : pyval) :
  all_runs (fun seg (_ : result pyval) =>
              waits_before_attempt seg = false
              /\ (count is_sleep seg = 0%nat
                  \/ exists client n ch user_id e delay,
                       seg = [EvCall (FetchChannel client n) (Returned (VObj ch));
                              EvCall (ChannelSend ch (WelcomeText user_id)) (Raised e);
                              EvLog WARNING (RateLimited delay);
                              EvSleep delay]
                       /\ delay = default (VFloat (5 # 1)) (exn_retry_after e)
                       /\ str_contains "rate limit" (lower (exn_msg e))
                          || str_contains "429" (exn_msg e) = true))
           (_send_welcome_message int_of_str self channel_id user).
Proof.
  unfold _send_welcome_message, _get_channel.
  destruct (_discord_client self) as [client |]; crunch;
    first [left; reflexivity
          | right; repeat eexists; first [eassumption | symmetry; eassumption]].
Qed.

(** C8 (as amended): the handler keeps no call budget.  Whatever number of
    dispatches to the same channel came before it, a dispatch never waits
    ahead of its send; if it waits at all, what it did is exactly a fetch,
    a send that raised a rate-limit signal, the warning and that one wait;
    and with a client injected, a channel that is fetched and a user whose
    id and name can be read, its send follows the fetch at once. *)
Theorem dispatch_never_waits_first (self : MemberEventHandler) (o : oracle)
    (channel_id user : pyval) (i : nat) :
  waits_before_attempt (dispatch_entries int_of_str self o channel_id user i) = false
  /\ (count is_sleep (dispatch_entries int_of_str self o channel_id user i) = 0%nat
      \/ exists client n ch user_id e delay,
           dispatch_entries int_of_str self o channel_id user i
           = [EvCall (FetchChannel client n) (Returned (VObj ch));
              EvCall (ChannelSend ch (WelcomeText user_id)) (Raised e);
              EvLog WARNING (RateLimited delay);
              EvSleep delay]
           /\ delay = default (VFloat (5 # 1)) (exn_retry_after e)
           /\ str_contains "rate limit" (lower (exn_msg e))
              || str_contains "429" (exn_msg e) = true)
  /\ (forall (client : nat) (n : Z) (ch : nat) (user_id username : pyval),
        _discord_client self = Some client ->
        py_int int_of_str channel_id = Returned n ->
        py_getitem user "id" = Returned user_id ->
        py_getitem user "username" = Returned username ->
        o (send_times int_of_str self o [] channel_id user i) (FetchChannel client n)
        = Returned (VObj ch) ->
        exists r rest,
          dispatch_entries int_of_str self o channel_id user i
          = EvCall (FetchChannel client n) (Returned (VObj ch))
            :: EvCall (ChannelSend ch (WelcomeText user_id)) r :: rest
          /\ count is_send rest = 0%nat).
Proof.
  unfold dispatch_entries. simpl.
  set (tr := send_times int_of_str self o [] channel_id user i).
  destruct (all_runs_run o _ _ (send_welcome_wait_shape self channel_id user) tr)
    as (seg & r & Hrun & Hfirst & Hwait).
  rewrite Hrun. simpl. rewrite drop_app_length.
  split; [exact Hfirst |]. split; [exact Hwait |].
  intros client n ch user_id username Hclient Hint Hid Hname Hfetch.
  destruct (run_send_attempts self o tr channel_id user client n ch user_id username
              Hclient Hint Hfetch Hid Hname)
    as (r' & rest & res & Hrun' & Hrest).
  rewrite Hrun in Hrun'. injection Hrun' as Hseg _.
  apply app_inv_head in Hseg. eauto.
Qed.

End Properties.

(** ** The properties on the concrete collaborators *)

(** C1, as stated, fails: the fixture event delivered twice to healthy
    collaborators is sent twice and never reported as a duplicate. *)
Lemma redelivery_dispatched_twice :
  ~ dispatched_exactly_once decimal handler healthy guild_member_add_event 2.
Proof.
  unfold dispatched_exactly_once. intros [Hsends _].
  vm_compute in Hsends. discriminate.
Qed.

Lemma every_delivery_is_dispatched_witness :
  (count is_lookup
     (process_all decimal handler healthy []
        [guild_member_add_event; redelivered_event; guild_member_add_event]).1
   = (count is_lookup [] + 3)%nat
   /\ count is_duplicate_report
        (process_all decimal handler healthy []
           [guild_member_add_event; redelivered_event; guild_member_add_event]).1
      = count is_duplicate_report [])
  /\ count is_send
       (process_all decimal handler healthy []
          [guild_member_add_event; redelivered_event; guild_member_add_event]).1
     = (count is_send [] + 3)%nat.
Proof.
  destruct (every_delivery_is_dispatched decimal handler healthy
              (VStr "123456789") (VStr "987654321")
              [guild_member_add_event; redelivered_event; guild_member_add_event] [])
    as [Hproceed Hsend].
  - repeat constructor; exists new_user, (VStr "new_user"); repeat split; reflexivity.
  - split; [exact Hproceed |].
    apply (Hsend 2%nat (VStr "555666777") 555666777 7%nat); try reflexivity;
      intros tr0; reflexivity.
Defined.


(** C3, as stated, fails: the first send is rate limited and a second one
    would succeed, yet after the wait no send follows. *)
Lemma rate_limited_send_not_retried :
  run (fails_once rate_limited) []
      (_send_welcome_message decimal handler (VStr "555666777") new_user)
  = ([EvCall (FetchChannel 2 555666777) (Returned (VObj 7));
      EvCall (ChannelSend 7 (WelcomeText (VStr "987654321"))) (Raised rate_limited);
      EvLog WARNING (RateLimited (VFloat (3 # 2)));
      EvSleep (VFloat (3 # 2))],
     Returned VNone)
  /\ retried_after_wait
       (run (fails_once rate_limited) []
            (_send_welcome_message decimal handler (VStr "555666777") new_user)).1
     = false.
Proof. split; vm_compute; reflexivity. Qed.

Lemma rate_limited_send_waits_and_returns_witness :
  run (fails_once rate_limited) []
      (_send_welcome_message decimal handler (VStr "555666777") new_user)
  = ([] ++ [EvCall (FetchChannel 2 555666777) (Returned (VObj 7));
            EvCall (ChannelSend 7 (WelcomeText (VStr "987654321"))) (Raised rate_limited);
            EvLog WARNING (RateLimited (VFloat (3 # 2)));
            EvSleep (VFloat (3 # 2))],
     Returned VNone).
Proof.
  apply (rate_limited_send_waits_and_returns decimal handler (fails_once rate_limited) []
           (VStr "555666777") new_user 2 555666777 7
           (VStr "987654321") (VStr "new_user") rate_limited (VFloat (3 # 2)));
    vm_compute; reflexivity.
Defined.

(** C4, as stated, fails: the first send meets a connection reset and a
    second one would succeed, yet there is one attempt, no wait, and the
    error that comes out is the connection reset itself. *)
Lemma transient_failure_not_retried :
  run (fails_once connection_reset) []
      (_send_welcome_message decimal handler (VStr "555666777") new_user)
  = ([EvCall (FetchChannel 2 555666777) (Returned (VObj 7));
      EvCall (ChannelSend 7 (WelcomeText (VStr "987654321"))) (Raised connection_reset);
      EvLog ERROR (SendFailed "Connection reset by peer")],
     Raised connection_reset).
Proof. vm_compute. reflexivity. Qed.

Lemma unmarked_failure_reraised_witness :
  run (fails_once connection_reset) []
      (_send_welcome_message decimal handler (VStr "555666777") new_user)
  = ([] ++ [EvCall (FetchChannel 2 555666777) (Returned (VObj 7));
            EvCall (ChannelSend 7 (WelcomeText (VStr "987654321")))
                   (Raised connection_reset);
            EvLog ERROR (SendFailed (exn_msg connection_reset))],
     Raised connection_reset).
Proof.
  apply (unmarked_failure_reraised decimal handler (fails_once connection_reset) []
           (VStr "555666777") new_user 2 555666777 7
           (VStr "987654321") (VStr "new_user") connection_reset);
    vm_compute; reflexivity.
Defined.

(** C5, as stated, fails: an event whose identifier and display name are
    both the empty string passes validation. *)
Lemma empty_names_validate :
  _validate_event_data empty_names_event = Returned true.
Proof. vm_compute. reflexivity. Qed.

Lemma invalid_event_stops_witness :
  exists m,
    run healthy [] (handle_guild_member_add decimal handler malformed_event)
    = ([] ++ [EvLog ERROR m], Returned VNone).
Proof.
  apply (invalid_event_stops decimal handler healthy [] malformed_event).
  vm_compute. discriminate.
Defined.

Lemma no_target_stops_and_is_retry_safe_witness :
  process_all decimal handler one_guild_unconfigured []
    [guild_member_add_event; redelivered_event]
  = ([] ++ [EvCall (GetWelcomeChannel (config_service handler) (VStr "123456789"))
                   (Returned VNone);
            EvLog WARNING (NoWelcomeChannel (VStr "123456789"));
            EvCall (GetWelcomeChannel (config_service handler) (VStr "123456789"))
                   (Returned VNone);
            EvLog WARNING (NoWelcomeChannel (VStr "123456789"))],
     [Returned VNone; Returned VNone]).
Proof.
  apply (no_target_stops_and_is_retry_safe decimal handler one_guild_unconfigured []
           guild_member_add_event redelivered_event (VStr "123456789"));
    vm_compute; reflexivity.
Defined.

(** C8, as stated, fails already for a budget of one call: the second
    dispatch to the same channel goes out without a wait. *)
Lemma second_dispatch_does_not_wait :
  ~ budget_respected decimal handler healthy (VStr "555666777") new_user 1.
Proof.
  intros [_ Hwait]. vm_compute in Hwait. discriminate.
Qed.

Lemma dispatch_never_waits_first_witness :
  waits_before_attempt
    (dispatch_entries decimal handler healthy (VStr "555666777") new_user 1) = false
  /\ exists r rest,
       dispatch_entries decimal handler healthy (VStr "555666777") new_user 1
       = EvCall (FetchChannel 2 555666777) (Returned (VObj 7))
         :: EvCall (ChannelSend 7 (WelcomeText (VStr "987654321"))) r :: rest
       /\ count is_send rest = 0%nat.
Proof.
  destruct (dispatch_never_waits_first decimal handler healthy
              (VStr "555666777") new_user 1) as (Hfirst & _ & Hsend).
  split; [exact Hfirst |].
  apply (Hsend 2%nat 555666777 7%nat (VStr "987654321") (VStr "new_user")); reflexivity.
Defined.

Lemma missing_client_caught_at_boundary_witness :
  run healthy [] (handle_guild_member_add decimal bare_handler guild_member_add_event)
  = ([] ++ [EvCall (GetWelcomeChannel (config_service bare_handler) (VStr "123456789"))
                   (Returned (VStr "555666777"));
            EvLog ERROR (SendFailed "Discord client not initialized");
            EvLog ERROR (ProcessFailed (VStr "123456789") "Discord client not initialized")],
     Returned VNone).
Proof.
  apply (missing_client_caught_at_boundary decimal bare_handler healthy []
           guild_member_add_event (VStr "123456789") (VStr "555666777"));
    vm_compute; reflexivity.
Defined.

Lemma fetch_failure_gives_None_witness :
  (run (fetch_fails not_found) [] (_get_channel decimal handler (VStr "999999999"))).2
  = Returned VNone
  /\ (run (fetch_fails not_found) []
          (_send_welcome_message decimal handler (VStr "999999999") new_user)).2
     = Returned VNone
  /\ count is_send
       (run (fetch_fails not_found) []
            (_send_welcome_message decimal handler (VStr "999999999") new_user)).1
     = count is_send [].
Proof.
  apply (fetch_failure_gives_None decimal handler (fetch_fails not_found) []
           (VStr "999999999") new_user 2).
  - vm_compute. reflexivity.
  - intros n _. exists not_found. reflexivity.
Defined.

(** ** Further properties on the concrete collaborators *)

Lemma permission_denied_is_swallowed_witness :
  run (fails_once forbidden) []
      (_send_welcome_message decimal handler (VStr "555666777") new_user)
  = ([] ++ [EvCall (FetchChannel 2 555666777) (Returned (VObj 7));
            EvCall (ChannelSend 7 (WelcomeText (VStr "987654321"))) (Raised forbidden);
            EvLog ERROR (PermissionDenied (VStr "555666777"))],
     Returned VNone).
Proof.
  apply (permission_denied_is_swallowed decimal handler (fails_once forbidden) []
           (VStr "555666777") new_user 2 555666777 7
           (VStr "987654321") (VStr "new_user") forbidden);
    vm_compute; reflexivity.
Defined.

Lemma successful_delivery_witness :
  run healthy [] (handle_guild_member_add decimal handler guild_member_add_event)
  = ([] ++ [EvCall (GetWelcomeChannel (config_service handler) (VStr "123456789"))
                   (Returned (VStr "555666777"));
            EvCall (FetchChannel 2 555666777) (Returned (VObj 7));
            EvCall (ChannelSend 7 (WelcomeText (VStr "987654321"))) (Returned VNone);
            EvLog INFO (SentToChannel (VStr "555666777") (VStr "new_user")
                                      (VStr "987654321"));
            EvLog INFO (WelcomeSent (VStr "987654321") (VStr "123456789"))],
     Returned VNone).
Proof.
  apply (successful_delivery decimal handler healthy [] guild_member_add_event
           (VStr "123456789") new_user (VStr "555666777") 2 555666777 7
           (VStr "987654321") (VStr "new_user") VNone);
    vm_compute; reflexivity.
Defined.

Lemma channel_gone_logged_and_reported_sent_witness :
  run channel_gone [] (handle_guild_member_add decimal handler guild_member_add_event)
  = ([] ++ [EvCall (GetWelcomeChannel (config_service handler) (VStr "123456789"))
                   (Returned (VStr "999999999"));
            EvCall (FetchChannel 2 999999999) (Returned VNone);
            EvLog ERROR (ChannelNotFound (VStr "999999999"));
            EvLog INFO (WelcomeSent (VStr "987654321") (VStr "123456789"))],
     Returned VNone).
Proof.
  apply (channel_gone_logged_and_reported_sent decimal handler channel_gone []
           guild_member_add_event (VStr "123456789") new_user (VStr "999999999")
           2 999999999 (VStr "987654321"));
    vm_compute; reflexivity.
Defined.

Lemma config_error_is_logged_witness :
  run (config_down database_error) []
      (handle_guild_member_add decimal handler guild_member_add_event)
  = ([] ++ [EvCall (GetWelcomeChannel (config_service handler) (VStr "123456789"))
                   (Raised database_error);
            EvLog ERROR (ProcessFailed (VStr "123456789") (exn_msg database_error))],
     Returned VNone).
Proof.
  apply (config_error_is_logged decimal handler (config_down database_error) []
           guild_member_add_event (VStr "123456789") database_error);
    vm_compute; reflexivity.
Defined.

Lemma validate_ignores_other_fields_witness :
  _validate_event_data (<["joined_at" := VStr "2025-01-01T00:00:00"]> malformed_event)
  = _validate_event_data malformed_event.
Proof.
  apply (validate_ignores_other_fields malformed_event "joined_at"
           (VStr "2025-01-01T00:00:00")); discriminate.
Defined.

(** ** Properties of the verification script *)

(** X14: [check_function_in_file] answers [True] exactly when the path
    holds a readable file whose text contains the name. *)
Theorem check_function_in_file_true_iff (fs : tree) (filepath function_name : string) :
  (check_function_in_file fs filepath function_name).2 = true <->
  exists content,
    fs !! filepath = Some (Readable content)
    /\ str_contains function_name content = true.
Proof.
  unfold check_function_in_file, check_file_exists, read_text.
  destruct (fs !! filepath) as [[content | e] |] eqn:Hfile; simpl.
  - split.
    + intros H. eauto.
    + intros (c & Hc & Hin). injection Hc as <-. exact Hin.
  - split; [discriminate |]. intros (c & Hc & _). discriminate.
  - split; [discriminate |]. intros (c & Hc & _). discriminate.
Qed.

(** What one pattern check gives, by what is found at the path. *)
Lemma check_function_in_file_cases (fs : tree) (filepath function_name : string) :
  check_function_in_file fs filepath function_name =
  match fs !! filepath with
  | Some (Readable content) => ([], str_contains function_name content)
  | Some (Unreadable e) =>
      (["讀取文件錯誤 " +:+ filepath +:+ ": " +:+ exn_msg e], false)
  | None => ([], false)
  end.
Proof.
  unfold check_function_in_file, check_file_exists, read_text.
  destruct (fs !! filepath) as [[content | e] |]; reflexivity.
Qed.

(** The values of the loop: one answer per pattern, in order. *)
Lemma check_patterns_results (fs : tree) (file : string) (checks : list (string * string)) :
  (check_patterns fs file checks).2
  = map (fun c => (check_function_in_file fs file c.2).2) checks.
Proof.
  induction checks as [| [name pattern] rest IH]; simpl; [reflexivity |].
  destruct (check_function_in_file fs file pattern) as [out ex].
  destruct (check_patterns fs file rest) as [out' results].
  simpl in *. rewrite IH. reflexivity.
Qed.

Lemma py_all_map_true {A : Type} (f : A -> bool) (l : list A) :
  py_all (map f l) = true <-> Forall (fun x => f x = true) l.
Proof.
  unfold py_all. induction l as [| x l IH]; simpl.
  - split; auto.
  - unfold id at 1. rewrite andb_true_iff, IH, Forall_cons. reflexivity.
Qed.

(** A loop over at least one pattern succeeds exactly when the file can
    be read and its text contains every pattern. *)
Lemma check_patterns_true_iff (fs : tree) (file : string)
    (checks : list (string * string)) :
  checks <> [] ->
  py_all (check_patterns fs file checks).2 = true <->
  exists content,
    fs !! file = Some (Readable content)
    /\ Forall (fun pattern => str_contains pattern content = true) (map snd checks).
Proof.
  intros Hne. rewrite check_patterns_results, py_all_map_true.
  split.
  - intros Hall. destruct checks as [| c rest]; [congruence |].
    pose proof (Forall_inv Hall) as Hc. simpl in Hc.
    rewrite check_function_in_file_cases in Hc.
    destruct (fs !! file) as [[content | e] |] eqn:Hfile; try discriminate Hc.
    exists content. split; [reflexivity |]. apply List.Forall_map.
    eapply Forall_impl; [exact Hall |]. simpl. intros c' Hc'.
    rewrite check_function_in_file_cases, Hfile in Hc'. exact Hc'.
  - intros (content & Hfile & Hall). apply List.Forall_map in Hall.
    eapply Forall_impl; [exact Hall |]. simpl. intros c' Hc'.
    rewrite check_function_in_file_cases, Hfile. exact Hc'.
Qed.

(** X15: each of the four implementation checks succeeds exactly when its
    one file can be read and its text contains every name the check
    searches; nothing else in the tree matters. *)
Theorem implementation_checks_true_iff (fs : tree) :
  ((check_rate_limiting_implementation fs).2 = true <->
     exists content, fs !! rate_limit_file = Some (Readable content)
       /\ Forall (fun pattern => str_contains pattern content = true)
                 (map snd rate_limit_checks))
  /\ ((check_idempotency_implementation fs).2 = true <->
     exists content, fs !! event_handler_file = Some (Readable content)
       /\ Forall (fun pattern => str_contains pattern content = true)
                 (map snd idempotency_checks))
  /\ ((check_monitoring_implementation fs).2 = true <->
     exists content, fs !! monitoring_file = Some (Readable content)
       /\ Forall (fun pattern => str_contains pattern content = true)
                 (map snd monitoring_checks))
  /\ ((check_test_coverage fs).2 = true <->
     exists content, fs !! test_file = Some (Readable content)
       /\ Forall (fun pattern => str_contains pattern content = true)
                 (map snd test_checks)).
Proof.
  unfold check_rate_limiting_implementation, check_idempotency_implementation,
    check_monitoring_implementation, check_test_coverage.
  repeat split.
  all: match goal with
       | |- context [check_patterns ?t ?file ?checks] =>
           pose proof (check_patterns_true_iff t file checks) as Hiff;
           destruct (check_patterns t file checks) as [out results];
           simpl in *; apply Hiff; eauto; discriminate
       end.
Qed.

Lemma check_files_results (fs : tree) (files : list (string * string)) :
  (check_files fs files).2 = map (fun f => check_file_exists fs f.2) files.
Proof.
  induction files as [| [name filepath] rest IH]; simpl; [reflexivity |].
  destruct (check_files fs rest) as [out results]. simpl in *.
  rewrite IH. reflexivity.
Qed.

(** X16: the documentation check asks for existence only: it succeeds
    exactly when each of the three paths is present in the tree, readable
    or not. *)
Theorem check_documentation_true_iff (fs : tree) :
  (check_documentation fs).2 = true <->
  Forall (fun filepath => is_Some (fs !! filepath)) (map snd doc_files).
Proof.
  unfold check_documentation.
  pose proof (check_files_results fs doc_files) as Hres.
  destruct (check_files fs doc_files) as [out results]. simpl in Hres |- *.
  rewrite Hres. unfold py_all, check_file_exists. simpl. unfold id.
  rewrite !andb_true_iff, !bool_decide_eq_true, !Forall_cons, Forall_nil.
  tauto.
Qed.

(** X17: a source file that is missing fails every pattern of its check
    silently: the report is the heading and one cross per pattern, and
    the check answers [False]. *)
Theorem missing_source_fails_every_pattern (fs : tree) :
  fs !! rate_limit_file = None ->
  check_rate_limiting_implementation fs
  = ("🔍 檢查速率限制實現..."
       :: map (fun c => "   ❌ " +:+ c.1) rate_limit_checks,
     false).
Proof.
  intros Hnone. unfold check_rate_limiting_implementation. simpl.
  rewrite !check_function_in_file_cases, Hnone. reflexivity.
Qed.

(** X18: a source file that exists but cannot be read is opened again for
    every pattern: the report holds the read error once per pattern, each
    followed by that pattern's cross, and the check answers [False]. *)
Theorem unreadable_source_reported_per_pattern (fs : tree) (e : exn) :
  fs !! rate_limit_file = Some (Unreadable e) ->
  check_rate_limiting_implementation fs
  = ("🔍 檢查速率限制實現..."
       :: flat_map (fun c => ["讀取文件錯誤 " +:+ rate_limit_file +:+ ": " +:+ exn_msg e;
                              "   ❌ " +:+ c.1]) rate_limit_checks,
     false).
Proof.
  intros Hbad. unfold check_rate_limiting_implementation. simpl.
  rewrite !check_function_in_file_cases, Hbad. reflexivity.
Qed.

(** Taking a membership in a report apart. *)
Ltac elems :=
  repeat match goal with
         | H : _ ∈ _ ++ _ |- _ => apply elem_of_app in H; destruct H as [H | H]
         | H : _ ∈ _ :: _ |- _ => apply elem_of_cons in H; destruct H as [H | H]
         | H : _ ∈ [] |- _ => apply elem_of_nil in H; destruct H
         end.

(** A line that differs from the banner within its first bytes. *)
Ltac not_banner H :=
  exfalso; revert H; apply String.eqb_neq; vm_compute; reflexivity.

Lemma banner_not_in_patterns (fs : tree) (file : string) (checks : list (string * string)) :
  passed_banner ∉ (check_patterns fs file checks).1.
Proof.
  induction checks as [| [name pattern] rest IH]; simpl.
  - apply not_elem_of_nil.
  - rewrite check_function_in_file_cases.
    destruct (check_patterns fs file rest) as [out' results]. simpl in IH.
    destruct (fs !! file) as [[content | e] |]; simpl; intros H; elems;
      try (apply IH; assumption).
    + destruct (str_contains pattern content); not_banner H.
    + not_banner H.
    + not_banner H.
    + not_banner H.
Qed.

Lemma banner_not_in_files (fs : tree) (files : list (string * string)) :
  passed_banner ∉ (check_files fs files).1.
Proof.
  induction files as [| [name filepath] rest IH]; simpl.
  - apply not_elem_of_nil.
  - destruct (check_files fs rest) as [out' results]. simpl in IH |- *.
    intros H. elems; [| apply IH; assumption].
    destruct (check_file_exists fs filepath); not_banner H.
Qed.

Lemma banner_not_in_analysis (fs : tree) :
  passed_banner ∉ analyze_performance_targets fs.
Proof.
  unfold analyze_performance_targets, targets. intros H.
  destruct (check_file_exists fs dev_notes_file).
  - destruct (read_text fs dev_notes_file) as [content | e]; simpl in H; elems;
      try (not_banner H).
    all: unfold target_line in H;
      match type of H with
      | context [if ?b then _ else _] => destruct b
      end; not_banner H.
  - elems; not_banner H.
Qed.

(** The banner is printed exactly when the five checks succeed. *)
Lemma banner_iff_checks (fs : tree) :
  passed_banner ∈ main fs <->
  (check_rate_limiting_implementation fs).2 = true
  /\ (check_idempotency_implementation fs).2 = true
  /\ (check_monitoring_implementation fs).2 = true
  /\ (check_test_coverage fs).2 = true
  /\ (check_documentation fs).2 = true.
Proof.
  unfold main.
  pose proof (banner_not_in_patterns fs rate_limit_file rate_limit_checks) as N1.
  pose proof (banner_not_in_patterns fs event_handler_file idempotency_checks) as N2.
  pose proof (banner_not_in_patterns fs monitoring_file monitoring_checks) as N3.
  pose proof (banner_not_in_patterns fs test_file test_checks) as N4.
  pose proof (banner_not_in_files fs doc_files) as N5.
  pose proof (banner_not_in_analysis fs) as N6.
  unfold check_rate_limiting_implementation, check_idempotency_implementation,
    check_monitoring_implementation, check_test_coverage, check_documentation.
  destruct (check_patterns fs rate_limit_file rate_limit_checks) as [o1 r1].
  destruct (check_patterns fs event_handler_file idempotency_checks) as [o2 r2].
  destruct (check_patterns fs monitoring_file monitoring_checks) as [o3 r3].
  destruct (check_patterns fs test_file test_checks) as [o4 r4].
  destruct (check_files fs doc_files) as [o5 r5].
  cbn [fst snd] in *.
  destruct (py_all [py_all r1; py_all r2; py_all r3; py_all r4; py_all r5]) eqn:E.
  - split.
    + intros _. cbn [py_all forallb id] in E.
      repeat (apply andb_true_iff in E; destruct E as [? E]). auto.
    + intros _. rewrite !elem_of_app. do 8 right. left.
      unfold passed_lines. apply list_elem_of_here.
  - split.
    + intros H. exfalso. unfold unfinished_lines, advice_lines in H.
      elems; try contradiction; not_banner H.
    + intros (H1 & H2 & H3 & H4 & H5). rewrite H1, H2, H3, H4, H5 in E.
      discriminate E.
Qed.

(** X19: the banner "verification passed" is printed exactly when all
    five checks answered [True]: the four implementation checks and the
    documentation check. *)
Theorem main_announces_success_iff (fs : tree) :
  passed_banner ∈ main fs <->
  (check_rate_limiting_implementation fs).2 = true
  /\ (check_idempotency_implementation fs).2 = true
  /\ (check_monitoring_implementation fs).2 = true
  /\ (check_test_coverage fs).2 = true
  /\ (check_documentation fs).2 = true.
Proof. exact (banner_iff_checks fs). Qed.

(** The loop reads the tree at its one file only. *)
Lemma check_patterns_ext (fs1 fs2 : tree) (file : string)
    (checks : list (string * string)) :
  fs1 !! file = fs2 !! file ->
  check_patterns fs1 file checks = check_patterns fs2 file checks.
Proof.
  intros Heq. induction checks as [| [name pattern] rest IH]; simpl; [reflexivity |].
  rewrite !check_function_in_file_cases, Heq, IH. reflexivity.
Qed.

(** X20: the verdict does not depend on what the development notes say.
    Once the notes exist, replacing them by any other text, or by
    something unreadable, changes neither whether the banner "verification
    passed" is printed nor, with it, the line "performance targets met":
    the targets are only reported. *)
Theorem verdict_ignores_notes_content (fs : tree) (notes : node) :
  is_Some (fs !! dev_notes_file) ->
  passed_banner ∈ main (<[dev_notes_file := notes]> fs) <-> passed_banner ∈ main fs.
Proof.
  intros Hnotes. rewrite !banner_iff_checks.
  unfold check_rate_limiting_implementation, check_idempotency_implementation,
    check_monitoring_implementation, check_test_coverage, check_documentation.
  rewrite (check_patterns_ext (<[dev_notes_file := notes]> fs) fs rate_limit_file)
    by (apply lookup_insert_ne; discriminate).
  rewrite (check_patterns_ext (<[dev_notes_file := notes]> fs) fs event_handler_file)
    by (apply lookup_insert_ne; discriminate).
  rewrite (check_patterns_ext (<[dev_notes_file := notes]> fs) fs monitoring_file)
    by (apply lookup_insert_ne; discriminate).
  rewrite (check_patterns_ext (<[dev_notes_file := notes]> fs) fs test_file)
    by (apply lookup_insert_ne; discriminate).
  assert (check_files (<[dev_notes_file := notes]> fs) doc_files
          = check_files fs doc_files) as ->; [| reflexivity].
  unfold doc_files. simpl. unfold check_file_exists.
  rewrite lookup_insert_eq.
  rewrite !lookup_insert_ne by discriminate.
  rewrite (bool_decide_eq_true_2 (is_Some (Some notes))) by eauto.
  rewrite (bool_decide_eq_true_2 _ Hnotes). reflexivity.
Qed.

Lemma missing_source_fails_every_pattern_witness :
  check_rate_limiting_implementation ∅
  = ("🔍 檢查速率限制實現..."
       :: map (fun c => "   ❌ " +:+ c.1) rate_limit_checks,
     false).
Proof.
  apply (missing_source_fails_every_pattern ∅). reflexivity.
Defined.

Lemma unreadable_source_reported_per_pattern_witness :
  check_rate_limiting_implementation directory_tree
  = ("🔍 檢查速率限制實現..."
       :: flat_map (fun c => ["讀取文件錯誤 " +:+ rate_limit_file +:+ ": "
                                +:+ exn_msg is_a_directory;
                              "   ❌ " +:+ c.1]) rate_limit_checks,
     false).
Proof.
  apply (unreadable_source_reported_per_pattern directory_tree is_a_directory).
  reflexivity.
Defined.

Lemma verdict_ignores_notes_content_witness :
  passed_banner ∈ main (<[dev_notes_file := Unreadable is_a_directory]> complete_tree)
  <-> passed_banner ∈ main complete_tree.
Proof.
  apply (verdict_ignores_notes_content complete_tree (Unreadable is_a_directory)).
  exists (Readable "notes"). reflexivity.
Defined.
